(** * The instrumented allocation facade of [src/Common/memory.h]

    A shallow embedding of namespace [Memory]: the allocation entries
    [newImpl] and [newNoExcept], the deallocation entries [deleteImpl] and
    [deleteSized], the size resolver [getActualAllocationSize] and the
    accounting operations [trackMemory] and [untrackMemory].

    The header is compiled under three preprocessor switches, and it calls
    into four collaborators that live outside of it: the heap backend
    (libc or jemalloc), the guarded pool allocator [GWPAsan::GuardedAlloc],
    [CurrentMemoryTracker] and [ProfileEvents].  The switches become a
    record of booleans; the collaborators become records of operations over
    an abstract state, so every theorem holds for any implementation of
    them.  A small reference world at the end of the definitions part
    implements the interfaces and is used to run the code on concrete
    inputs. *)

From Stdlib Require Import ZArith List Bool Lia.
Import ListNotations.

Local Open Scope Z_scope.

(** ** Values *)

(** [void *] and [std::size_t].  No arithmetic is performed on either by
    the header, so no wrap-around has to be written out. *)
Definition ptr := Z.
Definition nullptr : ptr := 0.
Definition size_t := Z.

(** [static_cast<size_t>(align)] on a [std::align_val_t]. *)
Definition alignToSizeT (align : size_t) : size_t := align.

(** The build configuration: [USE_JEMALLOC], [USE_GWP_ASAN] and whether
    [_GNU_SOURCE] is defined. *)
Record Config : Type := mkConfig {
  USE_JEMALLOC : bool;
  USE_GWP_ASAN : bool;
  GNU_SOURCE : bool
}.

(** The three [ProfileEvents::Event]s declared at the top of the header. *)
Inductive Event : Type :=
| GWPAsanAllocateSuccess
| GWPAsanAllocateFailed
| GWPAsanFree.

(** [ProfileEvents]: three increment-only counters. *)
Record ProfileCounters : Type := mkCounters {
  allocate_success : nat;
  allocate_failed : nat;
  guarded_free : nat
}.

Definition increment_counter (e : Event) (c : ProfileCounters) : ProfileCounters :=
  match e with
  | GWPAsanAllocateSuccess =>
      mkCounters (S (allocate_success c)) (allocate_failed c) (guarded_free c)
  | GWPAsanAllocateFailed =>
      mkCounters (allocate_success c) (S (allocate_failed c)) (guarded_free c)
  | GWPAsanFree =>
      mkCounters (allocate_success c) (allocate_failed c) (S (guarded_free c))
  end.

Definition counters_total (c : ProfileCounters) : nat :=
  (allocate_success c + allocate_failed c + guarded_free c)%nat.

(** What can be thrown: [std::bad_alloc], or whatever escapes from
    [CurrentMemoryTracker::free] (the header guards that call with
    [catch (...)]). *)
Inductive exn : Type :=
| bad_alloc
| tracker_exception.

(** The ways a call can end.  [Terminated] is [std::terminate]: an
    exception that reaches the boundary of a [noexcept] function. *)
Inductive result (A : Type) : Type :=
| Returned (a : A)
| Thrown (e : exn)
| Terminated.

Arguments Returned {A} a.
Arguments Thrown {A} e.
Arguments Terminated {A}.

(** Every call that leaves the header, in the order it is made. *)
Inductive Call : Type :=
| CallShouldSample
| CallGuardedAllocate (size : size_t) (align : option size_t)
| CallPointerIsMine (p : ptr)
| CallGuardedDeallocate (p : ptr)
| CallGetSize (p : ptr)
| CallIncrement (e : Event)
| CallMalloc (size : size_t)
| CallAlignedAlloc (align size : size_t)
| CallFree (p : ptr)
| CallMallocUsableSize (p : ptr)
| CallJeMalloc (size : size_t)
| CallJeAlignedAlloc (align size : size_t)
| CallJeFree (p : ptr)
| CallJeSdallocx (p : ptr) (size : size_t) (flags : Z)
| CallJeNallocx (size : size_t) (flags : Z)
| CallJeSallocx (p : ptr) (flags : Z)
| CallAllocNoThrow (size : size_t)
| CallTrackerFree (size : size_t).

(** ** The collaborators *)

(** The heap backend.  Both families of entry points are present; a build
    uses one of them.  [MALLOCX_ALIGN] is jemalloc's macro that encodes an
    alignment into the flags argument. *)
Record Backend (H : Type) : Type := mkBackend {
  malloc : size_t -> H -> ptr * H;
  aligned_alloc : size_t -> size_t -> H -> ptr * H;
  free : ptr -> H -> H;
  malloc_usable_size : ptr -> H -> size_t;
  je_malloc : size_t -> H -> ptr * H;
  je_aligned_alloc : size_t -> size_t -> H -> ptr * H;
  je_free : ptr -> H -> H;
  je_sdallocx : ptr -> size_t -> Z -> H -> H;
  je_nallocx : size_t -> Z -> size_t;
  je_sallocx : ptr -> Z -> H -> size_t;
  MALLOCX_ALIGN : size_t -> Z
}.

Arguments malloc {H} _ _ _.
Arguments aligned_alloc {H} _ _ _ _.
Arguments free {H} _ _ _.
Arguments malloc_usable_size {H} _ _ _.
Arguments je_malloc {H} _ _ _.
Arguments je_aligned_alloc {H} _ _ _ _.
Arguments je_free {H} _ _ _.
Arguments je_sdallocx {H} _ _ _ _ _.
Arguments je_nallocx {H} _ _ _.
Arguments je_sallocx {H} _ _ _ _.
Arguments MALLOCX_ALIGN {H} _ _.

(** [GWPAsan::shouldSample] and the singleton [GWPAsan::GuardedAlloc].
    [allocate] takes the alignment as an optional argument. *)
Record GuardedPoolAllocator (G : Type) : Type := mkGuarded {
  shouldSample : G -> bool * G;
  allocate : size_t -> option size_t -> G -> ptr * G;
  deallocate : ptr -> G -> G;
  pointerIsMine : ptr -> G -> bool;
  getSize : ptr -> G -> size_t
}.

Arguments shouldSample {G} _ _.
Arguments allocate {G} _ _ _ _.
Arguments deallocate {G} _ _ _.
Arguments pointerIsMine {G} _ _ _.
Arguments getSize {G} _ _ _.

(** [CurrentMemoryTracker].  [allocNoThrow] always returns a trace;
    [free] returns [None] for the trace when it throws. *)
Record MemoryTracker (T Tr : Type) : Type := mkTracker {
  allocNoThrow : size_t -> T -> Tr * T;
  tracker_free : size_t -> T -> option Tr * T
}.

Arguments allocNoThrow {T Tr} _ _ _.
Arguments tracker_free {T Tr} _ _ _.

(** ** The state of the process and the monad of the header *)

Record World (H G T : Type) : Type := mkWorld {
  heap : H;
  guarded : G;
  tracker : T;
  events : ProfileCounters;
  calls : list Call
}.

Arguments mkWorld {H G T} _ _ _ _ _.
Arguments heap {H G T} _.
Arguments guarded {H G T} _.
Arguments tracker {H G T} _.
Arguments events {H G T} _.
Arguments calls {H G T} _.

Definition M (W A : Type) : Type := W -> result A * W.

Definition ret {W A : Type} (a : A) : M W A := fun w => (Returned a, w).

Definition throw {W A : Type} (e : exn) : M W A := fun w => (Thrown e, w).

Definition bind {W A B : Type} (m : M W A) (k : A -> M W B) : M W B :=
  fun w =>
    match m w with
    | (Returned a, w') => k a w'
    | (Thrown e, w') => (Thrown e, w')
    | (Terminated, w') => (Terminated, w')
    end.

(** [try { body } catch (...) { handler }]. *)
Definition try_catch_all {W A : Type} (body handler : M W A) : M W A :=
  fun w =>
    match body w with
    | (Thrown _, w') => handler w'
    | r => r
    end.

(** The boundary of a function declared [noexcept]. *)
Definition noexcept {W A : Type} (body : M W A) : M W A :=
  fun w =>
    match body w with
    | (Thrown _, w') => (Terminated, w')
    | r => r
    end.

Declare Scope memory_scope.
Delimit Scope memory_scope with memory.

Notation "x <- m ;; k" := (bind m (fun x => k))
  (at level 100, m at next level, right associativity) : memory_scope.
Notation "m ;;; k" := (bind m (fun _ => k))
  (at level 100, right associativity) : memory_scope.

Local Open Scope memory_scope.

(** ** The header *)

Section Memory.

Context {H G T Tr : Type}.
Variable backend : Backend H.
Variable GuardedAlloc : GuardedPoolAllocator G.
Variable CurrentMemoryTracker : MemoryTracker T Tr.
Variable cfg : Config.

Abbreviation W := (World H G T).
Abbreviation Mem := (M W).

(** *** Calls into the collaborators *)

Definition on_heap {A : Type} (c : Call) (f : H -> A * H) : Mem A :=
  fun w =>
    let (a, h) := f (heap w) in
    (Returned a, mkWorld h (guarded w) (tracker w) (events w) (calls w ++ [c])).

Definition on_guarded {A : Type} (c : Call) (f : G -> A * G) : Mem A :=
  fun w =>
    let (a, g) := f (guarded w) in
    (Returned a, mkWorld (heap w) g (tracker w) (events w) (calls w ++ [c])).

Definition call_malloc (size : size_t) : Mem ptr :=
  on_heap (CallMalloc size) (malloc backend size).

Definition call_aligned_alloc (align size : size_t) : Mem ptr :=
  on_heap (CallAlignedAlloc align size) (aligned_alloc backend align size).

Definition call_free (p : ptr) : Mem unit :=
  on_heap (CallFree p) (fun h => (tt, free backend p h)).

Definition call_malloc_usable_size (p : ptr) : Mem size_t :=
  on_heap (CallMallocUsableSize p) (fun h => (malloc_usable_size backend p h, h)).

Definition call_je_malloc (size : size_t) : Mem ptr :=
  on_heap (CallJeMalloc size) (je_malloc backend size).

Definition call_je_aligned_alloc (align size : size_t) : Mem ptr :=
  on_heap (CallJeAlignedAlloc align size) (je_aligned_alloc backend align size).

Definition call_je_free (p : ptr) : Mem unit :=
  on_heap (CallJeFree p) (fun h => (tt, je_free backend p h)).

Definition call_je_sdallocx (p : ptr) (size : size_t) (flags : Z) : Mem unit :=
  on_heap (CallJeSdallocx p size flags) (fun h => (tt, je_sdallocx backend p size flags h)).

Definition call_je_nallocx (size : size_t) (flags : Z) : Mem size_t :=
  on_heap (CallJeNallocx size flags) (fun h => (je_nallocx backend size flags, h)).

Definition call_je_sallocx (p : ptr) (flags : Z) : Mem size_t :=
  on_heap (CallJeSallocx p flags) (fun h => (je_sallocx backend p flags h, h)).

Definition GWPAsan_shouldSample : Mem bool :=
  on_guarded CallShouldSample (shouldSample GuardedAlloc).

Definition GuardedAlloc_allocate (size : size_t) (align : option size_t) : Mem ptr :=
  on_guarded (CallGuardedAllocate size align) (allocate GuardedAlloc size align).

Definition GuardedAlloc_pointerIsMine (p : ptr) : Mem bool :=
  on_guarded (CallPointerIsMine p) (fun g => (pointerIsMine GuardedAlloc p g, g)).

Definition GuardedAlloc_deallocate (p : ptr) : Mem unit :=
  on_guarded (CallGuardedDeallocate p) (fun g => (tt, deallocate GuardedAlloc p g)).

Definition GuardedAlloc_getSize (p : ptr) : Mem size_t :=
  on_guarded (CallGetSize p) (fun g => (getSize GuardedAlloc p g, g)).

Definition ProfileEvents_increment (e : Event) : Mem unit :=
  fun w =>
    (Returned tt,
     mkWorld (heap w) (guarded w) (tracker w) (increment_counter e (events w))
             (calls w ++ [CallIncrement e])).

Definition CurrentMemoryTracker_allocNoThrow (size : size_t) : Mem Tr :=
  fun w =>
    let (trace, t) := allocNoThrow CurrentMemoryTracker size (tracker w) in
    (Returned trace,
     mkWorld (heap w) (guarded w) t (events w) (calls w ++ [CallAllocNoThrow size])).

Definition CurrentMemoryTracker_free (size : size_t) : Mem Tr :=
  fun w =>
    let (r, t) := tracker_free CurrentMemoryTracker size (tracker w) in
    let w' := mkWorld (heap w) (guarded w) t (events w) (calls w ++ [CallTrackerFree size]) in
    match r with
    | Some trace => (Returned trace, w')
    | None => (Thrown tracker_exception, w')
    end.

(** *** [newImpl]

    The template parameter pack [TAlign...] holds at most one alignment;
    it is an [option]. *)

(** Lines 54-67, compiled when [USE_JEMALLOC]. *)
Definition newImpl_jemalloc (size : size_t) (align : option size_t) : Mem ptr :=
  p <- match align with
       | Some a => call_je_aligned_alloc (alignToSizeT a) size
       | None => call_je_malloc size
       end ;;
  if negb (p =? nullptr) then ret p else throw bad_alloc.

(** Lines 73-112, compiled otherwise. *)
Definition newImpl_default (size : size_t) (align : option size_t) : Mem ptr :=
  let from_backend : Mem ptr :=
    p <- match align with
         | Some a => call_aligned_alloc (alignToSizeT a) size
         | None => call_malloc size
         end ;;
    if negb (p =? nullptr) then ret p else throw bad_alloc in
  if USE_GWP_ASAN cfg then
    sample <- GWPAsan_shouldSample ;;
    if sample then
      match align with
      | Some a =>
          p <- GuardedAlloc_allocate size (Some (alignToSizeT a)) ;;
          if negb (p =? nullptr)
          then (ProfileEvents_increment GWPAsanAllocateSuccess ;;; ret p)
          else (ProfileEvents_increment GWPAsanAllocateFailed ;;; from_backend)
      | None =>
          p <- GuardedAlloc_allocate size None ;;
          if negb (p =? nullptr)
          then (ProfileEvents_increment GWPAsanAllocateSuccess ;;; ret p)
          else (ProfileEvents_increment GWPAsanAllocateFailed ;;; from_backend)
      end
    else from_backend
  else from_backend.

Definition newImpl (size : size_t) (align : option size_t) : Mem ptr :=
  if USE_JEMALLOC cfg then newImpl_jemalloc size align else newImpl_default size align.

(** *** [newNoExcept]: two overloads per backend *)

(** Lines 116-119 and 121-124. *)
Definition newNoExcept_jemalloc (size : size_t) : Mem ptr :=
  noexcept (call_je_malloc size).

Definition newNoExcept_jemalloc_aligned (size align : size_t) : Mem ptr :=
  noexcept (call_je_aligned_alloc align size).

(** Lines 133-148. *)
Definition newNoExcept_default (size : size_t) : Mem ptr :=
  noexcept
    (let from_backend : Mem ptr := call_malloc size in
     if USE_GWP_ASAN cfg then
       sample <- GWPAsan_shouldSample ;;
       if sample then
         p <- GuardedAlloc_allocate size None ;;
         if negb (p =? nullptr)
         then (ProfileEvents_increment GWPAsanAllocateSuccess ;;; ret p)
         else (ProfileEvents_increment GWPAsanAllocateFailed ;;; from_backend)
       else from_backend
     else from_backend).

(** Lines 150-165. *)
Definition newNoExcept_default_aligned (size align : size_t) : Mem ptr :=
  noexcept
    (let from_backend : Mem ptr := call_aligned_alloc align size in
     if USE_GWP_ASAN cfg then
       sample <- GWPAsan_shouldSample ;;
       if sample then
         p <- GuardedAlloc_allocate size (Some (alignToSizeT align)) ;;
         if negb (p =? nullptr)
         then (ProfileEvents_increment GWPAsanAllocateSuccess ;;; ret p)
         else (ProfileEvents_increment GWPAsanAllocateFailed ;;; from_backend)
       else from_backend
     else from_backend).

(** Overload resolution. *)
Definition newNoExcept (size : size_t) (align : option size_t) : Mem ptr :=
  match USE_JEMALLOC cfg, align with
  | true, None => newNoExcept_jemalloc size
  | true, Some a => newNoExcept_jemalloc_aligned size a
  | false, None => newNoExcept_default size
  | false, Some a => newNoExcept_default_aligned size a
  end.

(** *** [deleteImpl] *)

(** Lines 126-129. *)
Definition deleteImpl_jemalloc (p : ptr) : Mem unit :=
  noexcept (call_je_free p).

(** Lines 167-178. *)
Definition deleteImpl_default (p : ptr) : Mem unit :=
  noexcept
    (if USE_GWP_ASAN cfg then
       mine <- GuardedAlloc_pointerIsMine p ;;
       if mine
       then (ProfileEvents_increment GWPAsanFree ;;; GuardedAlloc_deallocate p)
       else call_free p
     else call_free p).

Definition deleteImpl (p : ptr) : Mem unit :=
  if USE_JEMALLOC cfg then deleteImpl_jemalloc p else deleteImpl_default p.

(** *** [deleteSized] *)

(** Lines 184-204. *)
Definition deleteSized_jemalloc (p : ptr) (size : size_t) (align : option size_t) : Mem unit :=
  noexcept
    (if p =? nullptr then ret tt
     else
       let to_backend : Mem unit :=
         match align with
         | Some a => call_je_sdallocx p size (MALLOCX_ALIGN backend (alignToSizeT a))
         | None => call_je_sdallocx p size 0
         end in
       if USE_GWP_ASAN cfg then
         mine <- GuardedAlloc_pointerIsMine p ;;
         if mine
         then (ProfileEvents_increment GWPAsanFree ;;; GuardedAlloc_deallocate p)
         else to_backend
       else to_backend).

(** Lines 208-221; [size] and [align] are unused. *)
Definition deleteSized_default (p : ptr) (size : size_t) (align : option size_t) : Mem unit :=
  noexcept
    (if USE_GWP_ASAN cfg then
       mine <- GuardedAlloc_pointerIsMine p ;;
       if mine
       then (ProfileEvents_increment GWPAsanFree ;;; GuardedAlloc_deallocate p)
       else call_free p
     else call_free p).

Definition deleteSized (p : ptr) (size : size_t) (align : option size_t) : Mem unit :=
  if USE_JEMALLOC cfg then deleteSized_jemalloc p size align
  else deleteSized_default p size align.

(** *** The size resolver and the accounting operations *)

(** Lines 225-244. *)
Definition getActualAllocationSize (size : size_t) (align : option size_t) : Mem size_t :=
  let actual_size := size in
  if USE_JEMALLOC cfg then
    if negb (size =? 0) then
      match align with
      | Some a => call_je_nallocx size (MALLOCX_ALIGN backend (alignToSizeT a))
      | None => call_je_nallocx size 0
      end
    else ret actual_size
  else ret actual_size.

(** Lines 246-253.  The out-parameter [trace] is returned next to the
    size. *)
Definition trackMemory (size : size_t) (align : option size_t) : Mem (size_t * Tr) :=
  actual_size <- getActualAllocationSize size align ;;
  trace <- CurrentMemoryTracker_allocNoThrow actual_size ;;
  ret (actual_size, trace).

(** The body of the [try] block of [untrackMemory] up to the call of the
    tracker: the size that is going to be released (lines 273-291). *)
Definition resolve_freed_size (p : ptr) (size : size_t) (align : option size_t) : Mem size_t :=
  let actual_size := 0 in
  if USE_JEMALLOC cfg then
    if negb (p =? nullptr) then
      match align with
      | Some a => call_je_sallocx p (MALLOCX_ALIGN backend (alignToSizeT a))
      | None => call_je_sallocx p 0
      end
    else ret actual_size
  else
    if negb (size =? 0) then ret size
    else if GNU_SOURCE cfg then call_malloc_usable_size p
    else ret actual_size.

(** Lines 255-299.  [trace] is passed by reference: the caller's value
    comes in and the value it holds at the end goes out.  Inside the
    [try] block the local [actual_size] is assigned before the only call
    that can throw, so the handler finds it assigned and [trace]
    untouched. *)
Definition untrackMemory (p : ptr) (trace : Tr) (size : size_t) (align : option size_t)
  : Mem (size_t * Tr) :=
  noexcept
    (let not_guarded : Mem (size_t * Tr) :=
       actual_size <- resolve_freed_size p size align ;;
       try_catch_all
         (trace' <- CurrentMemoryTracker_free actual_size ;; ret (actual_size, trace'))
         (ret (actual_size, trace)) in
     if USE_GWP_ASAN cfg then
       mine <- GuardedAlloc_pointerIsMine p ;;
       if mine then
         size' <- (if size =? 0 then GuardedAlloc_getSize p else ret size) ;;
         trace' <- CurrentMemoryTracker_free size' ;;
         ret (size', trace')
       else not_guarded
     else not_guarded).

End Memory.

(** ** Reading the call log *)

(** The sizes passed to [CurrentMemoryTracker::allocNoThrow], oldest
    first. *)
Fixpoint charged_sizes (l : list Call) : list size_t :=
  match l with
  | [] => []
  | CallAllocNoThrow n :: l' => n :: charged_sizes l'
  | _ :: l' => charged_sizes l'
  end.

(** The sizes passed to [CurrentMemoryTracker::free], oldest first. *)
Fixpoint released_sizes (l : list Call) : list size_t :=
  match l with
  | [] => []
  | CallTrackerFree n :: l' => n :: released_sizes l'
  | _ :: l' => released_sizes l'
  end.

Definition is_guarded_allocate (c : Call) : bool :=
  match c with CallGuardedAllocate _ _ => true | _ => false end.

Definition is_guarded_deallocate (c : Call) : bool :=
  match c with CallGuardedDeallocate _ => true | _ => false end.

Definition is_backend_free (c : Call) : bool :=
  match c with
  | CallFree _ | CallJeFree _ | CallJeSdallocx _ _ _ => true
  | _ => false
  end.

Definition is_increment (c : Call) : bool :=
  match c with CallIncrement _ => true | _ => false end.

(** The number of sampled allocation attempts and of guarded frees made so
    far. *)
Definition sampled_attempts (l : list Call) : nat :=
  length (filter is_guarded_allocate l).

Definition guarded_frees (l : list Call) : nat :=
  length (filter is_guarded_deallocate l).

(** ** What the collaborators promise *)

(** jemalloc's size queries are precise: the real size [sallocx] reports
    for a fresh allocation is the one [nallocx] computes for the same
    request. *)
Record PreciseSizeQueries {H : Type} (b : Backend H) : Prop := mkPrecise {
  sallocx_of_je_malloc :
    forall size h p h',
      0 < size -> je_malloc b size h = (p, h') -> p <> nullptr ->
      je_sallocx b p 0 h' = je_nallocx b size 0;
  sallocx_of_je_aligned_alloc :
    forall align size h p h',
      0 < size -> je_aligned_alloc b align size h = (p, h') -> p <> nullptr ->
      je_sallocx b p (MALLOCX_ALIGN b align) h' = je_nallocx b size (MALLOCX_ALIGN b align)
}.

(** [free(NULL)] does nothing. *)
Definition FreeNullIsNoop {H : Type} (b : Backend H) : Prop :=
  forall h, free b nullptr h = h.

(** The guarded pool does not own the null pointer. *)
Definition NullIsNotGuarded {G : Type} (ga : GuardedPoolAllocator G) : Prop :=
  forall g, pointerIsMine ga nullptr g = false.

(** Ownership in the guarded pool, counted in slots: deciding whether to
    sample occupies nothing, a failed allocation occupies nothing, a
    successful one occupies at most one slot, and deallocating a pointer
    the pool owns gives one slot back. *)
Record SlotAccounting {G : Type} (ga : GuardedPoolAllocator G) (in_use : G -> nat) : Prop :=
  mkSlotAccounting {
  slots_shouldSample :
    forall g, in_use (snd (shouldSample ga g)) = in_use g;
  slots_allocate_failed :
    forall size align g,
      fst (allocate ga size align g) = nullptr ->
      (in_use (snd (allocate ga size align g)) <= in_use g)%nat;
  slots_allocate :
    forall size align g,
      (in_use (snd (allocate ga size align g)) <= S (in_use g))%nat;
  slots_deallocate :
    forall p g,
      pointerIsMine ga p g = true ->
      (S (in_use (deallocate ga p g)) <= in_use g)%nat
}.

(** ** Execution traces *)

(** One call of an entry of the header. *)
Inductive Op (Tr : Type) : Type :=
| OpNewImpl (size : size_t) (align : option size_t)
| OpNewNoExcept (size : size_t) (align : option size_t)
| OpDeleteImpl (p : ptr)
| OpDeleteSized (p : ptr) (size : size_t) (align : option size_t)
| OpTrackMemory (size : size_t) (align : option size_t)
| OpUntrackMemory (p : ptr) (trace : Tr) (size : size_t) (align : option size_t).

Arguments OpNewImpl {Tr} _ _.
Arguments OpNewNoExcept {Tr} _ _.
Arguments OpDeleteImpl {Tr} _.
Arguments OpDeleteSized {Tr} _ _ _.
Arguments OpTrackMemory {Tr} _ _.
Arguments OpUntrackMemory {Tr} _ _ _ _.

(** Whether the process goes on after a call: a thrown exception is the
    caller's to handle, [std::terminate] ends the process. *)
Definition survives {A : Type} (r : result A) : bool :=
  match r with
  | Terminated => false
  | _ => true
  end.

Section Traces.

Context {H G T Tr : Type}.
Variable backend : Backend H.
Variable GuardedAlloc : GuardedPoolAllocator G.
Variable CurrentMemoryTracker : MemoryTracker T Tr.
Variable cfg : Config.

Definition forget {A : Type} (r : result A * World H G T) : bool * World H G T :=
  (survives (fst r), snd r).

Definition exec_op (op : Op Tr) (w : World H G T) : bool * World H G T :=
  match op with
  | OpNewImpl size align =>
      forget (newImpl backend GuardedAlloc cfg size align w)
  | OpNewNoExcept size align =>
      forget (newNoExcept backend GuardedAlloc cfg size align w)
  | OpDeleteImpl p =>
      forget (deleteImpl backend GuardedAlloc cfg p w)
  | OpDeleteSized p size align =>
      forget (deleteSized backend GuardedAlloc cfg p size align w)
  | OpTrackMemory size align =>
      forget (trackMemory backend CurrentMemoryTracker cfg size align w)
  | OpUntrackMemory p trace size align =>
      forget (untrackMemory backend GuardedAlloc CurrentMemoryTracker cfg p trace size align w)
  end.

(** The world after a sequence of calls; nothing runs after the process
    has terminated. *)
Fixpoint run_trace (ops : list (Op Tr)) (w : World H G T) : World H G T :=
  match ops with
  | [] => w
  | op :: ops' =>
      let (alive, w') := exec_op op w in
      if alive then run_trace ops' w' else w'
  end.

End Traces.

(** What one call may do to the three counters, from the world [w] before
    it to the world [w'] after it: no counter goes down, together they go
    up by one at most, the successes and failures go up by the number of
    sampled attempts the call has made, and the frees by the number of
    deallocations it has passed to the guarded pool. *)
Definition one_counter_per_call {H G T : Type} (w w' : World H G T) : Prop :=
  (allocate_success (events w) <= allocate_success (events w')
   /\ allocate_failed (events w) <= allocate_failed (events w')
   /\ guarded_free (events w) <= guarded_free (events w')
   /\ counters_total (events w') <= S (counters_total (events w))
   /\ allocate_success (events w') + allocate_failed (events w')
        + sampled_attempts (calls w)
      = allocate_success (events w) + allocate_failed (events w)
        + sampled_attempts (calls w')
   /\ guarded_free (events w') + guarded_frees (calls w)
      = guarded_free (events w) + guarded_frees (calls w'))%nat.

(** The slots of the guarded pool that are in use and the frees recorded
    so far are paid for by recorded successes. *)
Definition frees_are_covered {H G T : Type} (in_use : G -> nat) (w : World H G T) : Prop :=
  (in_use (guarded w) + guarded_free (events w) <= allocate_success (events w))%nat.

(** A call does not spend more than it has earned: what it adds to the
    slots in use and to the frees, it has added to the successes. *)
Definition slots_are_paid {H G T : Type} (in_use : G -> nat) (w w' : World H G T) : Prop :=
  (in_use (guarded w') + guarded_free (events w') + allocate_success (events w)
   <= in_use (guarded w) + guarded_free (events w) + allocate_success (events w'))%nat.

(** ** A reference world

    An executable implementation of the three interfaces, small enough to
    run by hand: a bump allocator that rounds every request up to a size
    class, a guarded pool with a fixed number of slots and a scripted
    sampling decision, and a tracker that keeps the number of live bytes
    and can be told to throw on release. *)

Module Reference.

Record Heap : Type := mkHeap {
  blocks : list (ptr * size_t);
  next_block : ptr;
  room : Z
}.

(** Sizes are rounded up to a multiple of the alignment, and of 8 at
    least; a request for no bytes gets the smallest class, as jemalloc
    does. *)
Definition size_class (size : size_t) (flags : Z) : size_t :=
  let quantum := Z.max 8 (2 ^ flags) in
  quantum * ((Z.max size 1 + quantum - 1) / quantum).

Fixpoint block_size (p : ptr) (bs : list (ptr * size_t)) : size_t :=
  match bs with
  | [] => 0
  | (q, s) :: bs' => if q =? p then s else block_size p bs'
  end.

Definition owns (p : ptr) (bs : list (ptr * size_t)) : bool :=
  existsb (fun b => fst b =? p) bs.

Definition drop_block (p : ptr) (bs : list (ptr * size_t)) : list (ptr * size_t) :=
  filter (fun b => negb (fst b =? p)) bs.

Definition take_block (size : size_t) (flags : Z) (h : Heap) : ptr * Heap :=
  let c := size_class size flags in
  if c <=? room h
  then (next_block h,
        mkHeap ((next_block h, c) :: blocks h) (next_block h + c) (room h - c))
  else (nullptr, h).

(** Freeing the null pointer, or a pointer the heap does not know, does
    nothing. *)
Definition give_block (p : ptr) (h : Heap) : Heap :=
  if negb (p =? nullptr) && owns p (blocks h)
  then mkHeap (drop_block p (blocks h)) (next_block h) (room h + block_size p (blocks h))
  else h.

Definition the_backend : Backend Heap :=
  {| malloc := fun size => take_block size 0;
     aligned_alloc := fun align size => take_block size (Z.log2 align);
     free := give_block;
     malloc_usable_size := fun p h => block_size p (blocks h);
     je_malloc := fun size => take_block size 0;
     je_aligned_alloc := fun align size => take_block size (Z.log2 align);
     je_free := give_block;
     je_sdallocx := fun p _ _ => give_block p;
     je_nallocx := size_class;
     je_sallocx := fun p _ h => block_size p (blocks h);
     MALLOCX_ALIGN := Z.log2 |}.

Record Pool : Type := mkPool {
  decisions : list bool;
  slots : list (ptr * size_t);
  free_slots : nat;
  next_slot : nat
}.

(** The guarded region starts at [2^40]; every slot is a page. *)
Definition slot_address (n : nat) : ptr := 1099511627776 + 4096 * Z.of_nat n.

Definition the_guarded_pool : GuardedPoolAllocator Pool :=
  {| shouldSample := fun g =>
       match decisions g with
       | [] => (false, g)
       | d :: ds => (d, mkPool ds (slots g) (free_slots g) (next_slot g))
       end;
     allocate := fun size _ g =>
       match free_slots g with
       | O => (nullptr, g)
       | S n =>
           (slot_address (next_slot g),
            mkPool (decisions g) ((slot_address (next_slot g), size) :: slots g)
                   n (S (next_slot g)))
       end;
     deallocate := fun p g =>
       mkPool (decisions g) (drop_block p (slots g)) (S (free_slots g)) (next_slot g);
     pointerIsMine := fun p g => negb (p =? nullptr) && owns p (slots g);
     getSize := fun p g => block_size p (slots g) |}.

Record Usage : Type := mkUsage {
  amount : Z;
  free_throws : bool
}.

(** The trace of this tracker is the change it has just recorded. *)
Definition the_tracker : MemoryTracker Usage Z :=
  {| allocNoThrow := fun size t => (size, mkUsage (amount t + size) (free_throws t));
     tracker_free := fun size t =>
       if free_throws t then (None, t)
       else (Some (- size), mkUsage (amount t - size) (free_throws t)) |}.

(** The process at start: an empty heap of [bytes] bytes from address
    4096, an empty pool of [n] slots from address [2^40] that answers
    [shouldSample] from the script [ds], no bytes tracked, counters at
    zero and nothing called yet. *)
Definition start (bytes : Z) (ds : list bool) (n : nat) (throws : bool)
  : World Heap Pool Usage :=
  mkWorld (mkHeap [] 4096 bytes)
          (mkPool ds [] n 0)
          (mkUsage 0 throws)
          (mkCounters 0 0 0)
          [].

(** A process that never samples, and one whose first two requests are
    sampled while its pool has a single slot. *)
Definition fresh : World Heap Pool Usage := start 1000 [] 0 false.
Definition sampling : World Heap Pool Usage := start 1000 [true; true; false] 1 false.

(** A process that samples its first request and whose tracker throws on
    release. *)
Definition sampling_with_throwing_tracker : World Heap Pool Usage :=
  start 1000 [true] 1 true.

Definition jemalloc_build : Config := mkConfig true false true.
Definition jemalloc_gwp_build : Config := mkConfig true true true.
Definition libc_build : Config := mkConfig false false true.
Definition libc_gwp_build : Config := mkConfig false true true.

End Reference.

(** ** A jemalloc whose answers fit in a [size_t]

    The reference backend computes size classes in unbounded integers.
    This one answers [je_nallocx] as jemalloc documents it on a machine
    with 64-bit sizes: the size class of the request, or 0 when that class
    exceeds what a [size_t] holds.  Everything else is the reference
    backend. *)

Module Reference64.

Definition SIZE_MAX : size_t := 2 ^ 64 - 1.

Definition size_class (size : size_t) (flags : Z) : size_t :=
  let c := Reference.size_class size flags in
  if c <=? SIZE_MAX then c else 0.

Definition the_backend : Backend Reference.Heap :=
  {| malloc := malloc Reference.the_backend;
     aligned_alloc := aligned_alloc Reference.the_backend;
     free := free Reference.the_backend;
     malloc_usable_size := malloc_usable_size Reference.the_backend;
     je_malloc := je_malloc Reference.the_backend;
     je_aligned_alloc := je_aligned_alloc Reference.the_backend;
     je_free := je_free Reference.the_backend;
     je_sdallocx := je_sdallocx Reference.the_backend;
     je_nallocx := size_class;
     je_sallocx := je_sallocx Reference.the_backend;
     MALLOCX_ALIGN := MALLOCX_ALIGN Reference.the_backend |}.

End Reference64.

(** ** Vocabulary of the statements *)

Section Vocabulary.

Context {H G T : Type}.
Variable backend : Backend H.
Variable GuardedAlloc : GuardedPoolAllocator G.
Variable cfg : Config.

(** What the backend of this build answers to a request on the heap [h]. *)
Definition backend_answer (size : size_t) (align : option size_t) (h : H) : ptr * H :=
  match USE_JEMALLOC cfg, align with
  | true, Some a => je_aligned_alloc backend a size h
  | true, None => je_malloc backend size h
  | false, Some a => aligned_alloc backend a size h
  | false, None => malloc backend size h
  end.

(** The call that carries the request to the backend. *)
Definition backend_call (size : size_t) (align : option size_t) : Call :=
  match USE_JEMALLOC cfg, align with
  | true, Some a => CallJeAlignedAlloc a size
  | true, None => CallJeMalloc size
  | false, Some a => CallAlignedAlloc a size
  | false, None => CallMalloc size
  end.

(** What the guarded pool answers when the request is sampled: the
    pointer and the pool after [shouldSample] and [allocate]. *)
Definition guarded_answer (size : size_t) (align : option size_t) (g : G) : ptr * G :=
  allocate GuardedAlloc size align (snd (shouldSample GuardedAlloc g)).

(** The flags argument the jemalloc size queries receive. *)
Definition mallocx_flags (align : option size_t) : Z :=
  match align with
  | Some a => MALLOCX_ALIGN backend a
  | None => 0
  end.

(** The first call [newNoExcept] makes is [GWPAsan::shouldSample]: the
    reading of "first offers the request to the guarded pool" on the call
    log. *)
Definition offers_to_guard_first : Prop :=
  forall (size : size_t) (align : option size_t) (w : World H G T),
    exists rest,
      calls (snd (newNoExcept backend GuardedAlloc cfg size align w))
      = calls w ++ CallShouldSample :: rest.

(** The first call both deallocation entries make is
    [GuardedAlloc.pointerIsMine]: the reading of "first asks the guarded
    pool whether it owns the pointer" on the call log. *)
Definition asks_guard_first_on_free : Prop :=
  forall (p : ptr) (size : size_t) (align : option size_t) (w : World H G T),
    (exists rest,
        calls (snd (deleteImpl backend GuardedAlloc cfg p w))
        = calls w ++ CallPointerIsMine p :: rest)
    /\ (exists rest,
           calls (snd (deleteSized backend GuardedAlloc cfg p size align w))
           = calls w ++ CallPointerIsMine p :: rest).

(** The world after a free that was routed to the guarded pool. *)
Definition freed_by_guard (p : ptr) (w : World H G T) : World H G T :=
  mkWorld (heap w) (deallocate GuardedAlloc p (guarded w)) (tracker w)
          (increment_counter GWPAsanFree (events w))
          (calls w ++ [CallPointerIsMine p; CallIncrement GWPAsanFree;
                       CallGuardedDeallocate p]).

(** The size the backend commits to the request on the heap [h]: the real
    size of the block it hands out, as [je_sallocx] reports it. *)
Definition committed_size (size : size_t) (align : option size_t) (h : H) : size_t :=
  let (p, h') := backend_answer size align h in
  je_sallocx backend p (mallocx_flags align) h'.

(** The size to release as the specification orders the sources: the size
    the caller declares when there is one, else the committed size the
    backend reports, else the approximate usable size. *)
Definition released_size_by_preference
    (p : ptr) (size : size_t) (align : option size_t) (h : H) : size_t :=
  if negb (size =? 0) then size
  else if USE_JEMALLOC cfg then je_sallocx backend p (mallocx_flags align) h
  else malloc_usable_size backend p h.

(** The size [untrackMemory] releases for a pointer the guarded pool does
    not own, build by build. *)
Definition released_size
    (p : ptr) (size : size_t) (align : option size_t) (h : H) : size_t :=
  if USE_JEMALLOC cfg then
    if p =? nullptr then 0 else je_sallocx backend p (mallocx_flags align) h
  else if negb (size =? 0) then size
  else if GNU_SOURCE cfg then malloc_usable_size backend p h
  else 0.

(** The size [getActualAllocationSize] resolves, build by build. *)
Definition resolved_size (size : size_t) (align : option size_t) : size_t :=
  if USE_JEMALLOC cfg && negb (size =? 0)
  then je_nallocx backend size (mallocx_flags align)
  else size.

End Vocabulary.

(** ** More readers of the call log *)

(** Calls of [CurrentMemoryTracker]. *)
Definition is_tracker_call (c : Call) : bool :=
  match c with
  | CallAllocNoThrow _ | CallTrackerFree _ => true
  | _ => false
  end.

(** Requests for memory to the heap backend. *)
Definition is_backend_alloc (c : Call) : bool :=
  match c with
  | CallMalloc _ | CallAlignedAlloc _ _ | CallJeMalloc _ | CallJeAlignedAlloc _ _ => true
  | _ => false
  end.

(** Questions about the size of a block, to the backend or to the guarded
    pool. *)
Definition is_size_query (c : Call) : bool :=
  match c with
  | CallJeSallocx _ _ | CallJeNallocx _ _ | CallMallocUsableSize _ | CallGetSize _ => true
  | _ => false
  end.

(** Calls that decide on sampling or take a slot of the guarded pool. *)
Definition is_sampling_call (c : Call) : bool :=
  match c with
  | CallShouldSample | CallGuardedAllocate _ _ => true
  | _ => false
  end.

(** Calls of [GWPAsan] and of [ProfileEvents]. *)
Definition is_guard_call (c : Call) : bool :=
  match c with
  | CallShouldSample | CallGuardedAllocate _ _ | CallPointerIsMine _
  | CallGuardedDeallocate _ | CallGetSize _ | CallIncrement _ => true
  | _ => false
  end.

(** Calls that take or give memory, from either allocator, and calls that
    count. *)
Definition is_allocator_call (c : Call) : bool :=
  is_backend_alloc c || is_backend_free c
  || is_guarded_allocate c || is_guarded_deallocate c || is_increment c.

(** The guarded pool owns the pointers it hands out. *)
Definition OwnsWhatItAllocates {G : Type} (ga : GuardedPoolAllocator G) : Prop :=
  forall size align g,
    fst (allocate ga size align g) <> nullptr ->
    pointerIsMine ga (fst (allocate ga size align g)) (snd (allocate ga size align g)) = true.

(** The guarded pool reports, for a pointer it has handed out, the size
    that was asked for. *)
Definition GetSizeIsRequested {G : Type} (ga : GuardedPoolAllocator G) : Prop :=
  forall size align g,
    fst (allocate ga size align g) <> nullptr ->
    getSize ga (fst (allocate ga size align g)) (snd (allocate ga size align g)) = size.

(** [je_free(NULL)] does nothing. *)
Definition JeFreeNullIsNoop {H : Type} (b : Backend H) : Prop :=
  forall h, je_free b nullptr h = h.

(** * Theorems *)

Ltac unfold_calls :=
  unfold call_malloc, call_aligned_alloc, call_free, call_malloc_usable_size,
    call_je_malloc, call_je_aligned_alloc, call_je_free, call_je_sdallocx,
    call_je_nallocx, call_je_sallocx, GWPAsan_shouldSample, GuardedAlloc_allocate,
    GuardedAlloc_pointerIsMine, GuardedAlloc_deallocate, GuardedAlloc_getSize,
    ProfileEvents_increment, CurrentMemoryTracker_allocNoThrow,
    CurrentMemoryTracker_free, on_heap, on_guarded in *.

Ltac unfold_monad :=
  unfold noexcept, try_catch_all, bind, ret, throw in *.

Ltac unfold_entries :=
  unfold newImpl, newImpl_jemalloc, newImpl_default,
    newNoExcept, newNoExcept_jemalloc, newNoExcept_jemalloc_aligned,
    newNoExcept_default, newNoExcept_default_aligned,
    deleteImpl, deleteImpl_jemalloc, deleteImpl_default,
    deleteSized, deleteSized_jemalloc, deleteSized_default,
    trackMemory, getActualAllocationSize,
    untrackMemory, resolve_freed_size, alignToSizeT in *.

(** Case analysis on the next scrutinee of the goal. *)
Ltac split_match :=
  match goal with
  | |- context [match ?x with _ => _ end] =>
      lazymatch x with
      | context [match _ with _ => _ end] => fail
      | _ => destruct x eqn:?
      end
  | |- context [if ?x then _ else _] =>
      lazymatch x with
      | context [if _ then _ else _] => fail
      | context [match _ with _ => _ end] => fail
      | _ => destruct x eqn:?
      end
  end.

Ltac run_header :=
  unfold_entries; unfold_calls; unfold_monad; simpl in *.

(** Turn the boolean tests of the code into equations. *)
Ltac null_tests :=
  repeat match goal with
    | E : negb _ = true |- _ => apply negb_true_iff in E
    | E : negb _ = false |- _ => apply negb_false_iff in E
    | E : (_ =? _) = false |- _ => apply Z.eqb_neq in E
    | E : (_ =? _) = true |- _ => apply Z.eqb_eq in E
    end.

Section Allocation.

Context {H G T : Type}.
Variable backend : Backend H.
Variable GuardedAlloc : GuardedPoolAllocator G.
Variable cfg : Config.

Abbreviation W := (World H G T).

(** C4.  The non-throwing entry [newNoExcept] returns, for every size
    (zero included), alignment and state of the process, and whatever the
    backend answers: it never throws and never terminates the process.
    What it returns is the backend's answer, null when the backend has
    failed, or the pointer, not null, that the guarded pool gave to a
    sampled request. *)
Theorem newNoExcept_never_raises :
  forall (size : size_t) (align : option size_t) (w : W),
    exists p w',
      newNoExcept backend GuardedAlloc cfg size align w = (Returned p, w')
      /\ (p = fst (backend_answer backend cfg size align (heap w))
          \/ (p <> nullptr
              /\ USE_JEMALLOC cfg = false /\ USE_GWP_ASAN cfg = true
              /\ fst (shouldSample GuardedAlloc (guarded w)) = true
              /\ p = fst (guarded_answer GuardedAlloc size align (guarded w)))).
Proof.
  intros size align w.
  unfold backend_answer, guarded_answer.
  run_header.
  destruct (USE_JEMALLOC cfg), (USE_GWP_ASAN cfg), align as [a|]; simpl;
    repeat (split_match; simpl);
    null_tests;
    do 2 eexists; (split; [reflexivity|]);
    first [ left; reflexivity | right; repeat split; solve [reflexivity | assumption] ].
Qed.

(** C5, as the code has it.  In a build with sampling and without jemalloc,
    [newNoExcept] first calls [shouldSample].  On a miss it goes to the
    backend.  On a hit it calls the guarded [allocate] with the request;
    a pointer that is not null is returned at once, after
    [GWPAsanAllocateSuccess] has been incremented, and the backend is not
    touched; a null pointer increments [GWPAsanAllocateFailed] and the
    request falls through to the backend.  In all three cases the call
    returns: the failure of the guarded allocation is not raised. *)
Theorem newNoExcept_default_offers_to_guard_first :
  USE_GWP_ASAN cfg = true ->
  USE_JEMALLOC cfg = false ->
  forall (size : size_t) (align : option size_t) (w : W),
    let (sample, g1) := shouldSample GuardedAlloc (guarded w) in
    let (q, g2) := allocate GuardedAlloc size align g1 in
    let (b, h1) := backend_answer backend cfg size align (heap w) in
    newNoExcept backend GuardedAlloc cfg size align w =
      if sample then
        if q =? nullptr then
          (Returned b,
           mkWorld h1 g2 (tracker w)
                   (increment_counter GWPAsanAllocateFailed (events w))
                   (calls w ++ [CallShouldSample; CallGuardedAllocate size align;
                                CallIncrement GWPAsanAllocateFailed;
                                backend_call cfg size align]))
        else
          (Returned q,
           mkWorld (heap w) g2 (tracker w)
                   (increment_counter GWPAsanAllocateSuccess (events w))
                   (calls w ++ [CallShouldSample; CallGuardedAllocate size align;
                                CallIncrement GWPAsanAllocateSuccess]))
      else
        (Returned b,
         mkWorld h1 g1 (tracker w) (events w)
                 (calls w ++ [CallShouldSample; backend_call cfg size align])).
Proof.
  intros Hgwp Hje size align w.
  unfold backend_answer, backend_call.
  run_header.
  rewrite Hgwp, Hje.
  destruct align as [a|]; simpl;
    destruct (shouldSample GuardedAlloc (guarded w)) as [sample g1];
    destruct (allocate GuardedAlloc size _ g1) as [q g2] eqn:Eq.
  - destruct (aligned_alloc backend a size (heap w)) as [b h1] eqn:Eb.
    destruct sample; simpl; rewrite ?Eq; simpl;
      try destruct (q =? nullptr); simpl; rewrite ?Eb; simpl;
      rewrite <- ?app_assoc; reflexivity.
  - destruct (malloc backend size (heap w)) as [b h1] eqn:Eb.
    destruct sample; simpl; rewrite ?Eq; simpl;
      try destruct (q =? nullptr); simpl; rewrite ?Eb; simpl;
      rewrite <- ?app_assoc; reflexivity.
Qed.

End Allocation.

Section Deallocation.

Context {H G T : Type}.
Variable backend : Backend H.
Variable GuardedAlloc : GuardedPoolAllocator G.
Variable cfg : Config.

Abbreviation W := (World H G T).

(** C2, as the code has it.  With sampling compiled in:
    - without jemalloc, [deleteImpl] and [deleteSized] first ask
      [pointerIsMine]; a pointer the pool owns increments [GWPAsanFree]
      once and goes to [GuardedAlloc.deallocate], and the heap of the
      backend is left alone; any other pointer goes to [free];
    - with jemalloc, [deleteSized] returns at once on the null pointer and
      otherwise does the same, its backend free being [je_sdallocx] with
      the declared size and the alignment flags; [deleteImpl] hands the
      pointer to [je_free] and asks nothing.
    Every one of these calls returns. *)
Theorem deallocation_routing :
  USE_GWP_ASAN cfg = true ->
  forall (p : ptr) (size : size_t) (align : option size_t) (w : W),
    let mine := pointerIsMine GuardedAlloc p (guarded w) in
    if USE_JEMALLOC cfg then
      deleteImpl backend GuardedAlloc cfg p w =
        (Returned tt,
         mkWorld (je_free backend p (heap w)) (guarded w) (tracker w) (events w)
                 (calls w ++ [CallJeFree p]))
      /\ deleteSized backend GuardedAlloc cfg p size align w =
           if p =? nullptr then (Returned tt, w)
           else if mine then (Returned tt, freed_by_guard GuardedAlloc p w)
           else
             (Returned tt,
              mkWorld (je_sdallocx backend p size (mallocx_flags backend align) (heap w))
                      (guarded w) (tracker w) (events w)
                      (calls w ++ [CallPointerIsMine p;
                                   CallJeSdallocx p size (mallocx_flags backend align)]))
    else
      deleteImpl backend GuardedAlloc cfg p w =
        (if mine then (Returned tt, freed_by_guard GuardedAlloc p w)
         else
           (Returned tt,
            mkWorld (free backend p (heap w)) (guarded w) (tracker w) (events w)
                    (calls w ++ [CallPointerIsMine p; CallFree p])))
      /\ deleteSized backend GuardedAlloc cfg p size align w =
           (if mine then (Returned tt, freed_by_guard GuardedAlloc p w)
            else
              (Returned tt,
               mkWorld (free backend p (heap w)) (guarded w) (tracker w) (events w)
                       (calls w ++ [CallPointerIsMine p; CallFree p]))).
Proof.
  intros Hgwp p size align w mine; subst mine.
  unfold freed_by_guard, mallocx_flags.
  run_header.
  rewrite Hgwp.
  destruct (USE_JEMALLOC cfg); (split; [|destruct align as [a|]]); simpl;
    try destruct (p =? nullptr); simpl;
    try destruct (pointerIsMine GuardedAlloc p (guarded w)); simpl;
    rewrite <- ?app_assoc; reflexivity.
Qed.

(** C10.  [deleteSized] on the null pointer changes nothing, whatever the
    declared size and alignment and whatever the build: it returns, the
    heap, the guarded pool, the tracker and the three counters are as
    before, the guarded pool is not asked to deallocate, no profile event
    is incremented, and the only backend free that can appear in the log
    is [free(nullptr)].  The collaborators are assumed to treat the null
    pointer as C and the pool do: [free(nullptr)] does nothing and the
    pool does not own it. *)
Theorem deleteSized_null_is_noop :
  FreeNullIsNoop backend ->
  NullIsNotGuarded GuardedAlloc ->
  forall (size : size_t) (align : option size_t) (w : W),
    exists w' added,
      deleteSized backend GuardedAlloc cfg nullptr size align w = (Returned tt, w')
      /\ heap w' = heap w
      /\ guarded w' = guarded w
      /\ tracker w' = tracker w
      /\ events w' = events w
      /\ calls w' = calls w ++ added
      /\ filter is_guarded_deallocate added = []
      /\ filter is_increment added = []
      /\ (forall c, In c added -> is_backend_free c = true -> c = CallFree nullptr).
Proof.
  intros Hfree Hnull size align w.
  run_header.
  destruct (USE_JEMALLOC cfg); simpl.
  - exists w, []. rewrite app_nil_r. simpl. repeat split; tauto.
  - destruct (USE_GWP_ASAN cfg); simpl; rewrite ?Hnull; simpl; rewrite Hfree.
    + eexists; exists [CallPointerIsMine nullptr; CallFree nullptr]; simpl.
      rewrite <- app_assoc; simpl.
      repeat split; try reflexivity.
      intros c [<-|[<-|[]]]; simpl; congruence.
    + eexists; exists [CallFree nullptr]; simpl.
      repeat split; try reflexivity.
      intros c [<-|[]]; reflexivity.
Qed.

End Deallocation.

Section Accounting.

Context {H G T Tr : Type}.
Variable backend : Backend H.
Variable GuardedAlloc : GuardedPoolAllocator G.
Variable CurrentMemoryTracker : MemoryTracker T Tr.
Variable cfg : Config.

Abbreviation W := (World H G T).

Lemma charged_sizes_app (l1 l2 : list Call) :
  charged_sizes (l1 ++ l2) = charged_sizes l1 ++ charged_sizes l2.
Proof.
  induction l1 as [|c l1 IH]; simpl; [reflexivity|].
  destruct c; simpl; rewrite IH; reflexivity.
Qed.

Lemma released_sizes_app (l1 l2 : list Call) :
  released_sizes (l1 ++ l2) = released_sizes l1 ++ released_sizes l2.
Proof.
  induction l1 as [|c l1 IH]; simpl; [reflexivity|].
  destruct c; simpl; rewrite IH; reflexivity.
Qed.

(** [getActualAllocationSize] returns the resolved size and leaves the
    heap, the pool, the tracker and the counters alone. *)
Lemma getActualAllocationSize_returns (size : size_t) (align : option size_t) (w : W) :
  exists l,
    getActualAllocationSize backend cfg size align w
    = (Returned (resolved_size backend cfg size align),
       mkWorld (heap w) (guarded w) (tracker w) (events w) (calls w ++ l))
    /\ charged_sizes l = [] /\ released_sizes l = [].
Proof.
  unfold resolved_size, mallocx_flags. run_header.
  destruct (USE_JEMALLOC cfg), (size =? 0), align as [a|]; simpl;
    first [ exists []; rewrite app_nil_r; destruct w; simpl; repeat split; reflexivity
          | eexists [_]; repeat split; reflexivity ].
Qed.

(** [trackMemory] returns: it charges the resolved size, once. *)
Lemma trackMemory_returns (size : size_t) (align : option size_t) (w : W) :
  let actual := resolved_size backend cfg size align in
  exists w',
    trackMemory backend CurrentMemoryTracker cfg size align w
    = (Returned (actual, fst (allocNoThrow CurrentMemoryTracker actual (tracker w))), w')
    /\ heap w' = heap w
    /\ guarded w' = guarded w
    /\ events w' = events w
    /\ tracker w' = snd (allocNoThrow CurrentMemoryTracker actual (tracker w))
    /\ charged_sizes (calls w') = charged_sizes (calls w) ++ [actual]
    /\ released_sizes (calls w') = released_sizes (calls w).
Proof.
  intros actual.
  destruct (getActualAllocationSize_returns size align w) as (l & E & Hc & Hr).
  unfold trackMemory, bind. rewrite E.
  unfold CurrentMemoryTracker_allocNoThrow, ret; simpl.
  fold actual.
  destruct (allocNoThrow CurrentMemoryTracker actual (tracker w)) as [tr t'] eqn:Et.
  simpl. eexists; split; [reflexivity|]. simpl.
  repeat split; try reflexivity.
  - rewrite !charged_sizes_app, Hc. simpl. rewrite app_nil_r. reflexivity.
  - rewrite !released_sizes_app, Hr. simpl. rewrite !app_nil_r. reflexivity.
Qed.

(** For a pointer the guarded pool does not own, [untrackMemory] returns
    even when the tracker throws: the exception is caught, the trace of
    the caller is left as it was, and the size is returned all the same. *)
Lemma untrackMemory_not_guarded
    (p : ptr) (trace : Tr) (size : size_t) (align : option size_t) (w : W) :
  (USE_GWP_ASAN cfg = true -> pointerIsMine GuardedAlloc p (guarded w) = false) ->
  let actual := released_size backend cfg p size align (heap w) in
  exists w',
    untrackMemory backend GuardedAlloc CurrentMemoryTracker cfg p trace size align w
    = (Returned (actual,
                 match fst (tracker_free CurrentMemoryTracker actual (tracker w)) with
                 | Some trace' => trace'
                 | None => trace
                 end), w')
    /\ heap w' = heap w
    /\ guarded w' = guarded w
    /\ events w' = events w
    /\ tracker w' = snd (tracker_free CurrentMemoryTracker actual (tracker w))
    /\ released_sizes (calls w') = released_sizes (calls w) ++ [actual]
    /\ charged_sizes (calls w') = charged_sizes (calls w).
Proof.
  intros Hmine actual; subst actual.
  unfold released_size, mallocx_flags.
  run_header.
  destruct (USE_GWP_ASAN cfg); [rewrite (Hmine eq_refl)|]; simpl;
    destruct (USE_JEMALLOC cfg), (GNU_SOURCE cfg), (p =? nullptr), (size =? 0),
      align as [a|]; simpl;
    match goal with
    | |- context [tracker_free CurrentMemoryTracker ?n ?t] =>
        destruct (tracker_free CurrentMemoryTracker n t) as [[trace'|] t']
    end; simpl;
    eexists; (split; [reflexivity|]); simpl;
    rewrite ?released_sizes_app, ?charged_sizes_app; simpl;
    rewrite ?app_nil_r; repeat split; reflexivity.
Qed.

(** What a successful [newImpl] of the jemalloc build tells about the
    heap. *)
Lemma newImpl_jemalloc_returned
    (size : size_t) (align : option size_t) (w w' : W) (p : ptr) :
  USE_JEMALLOC cfg = true ->
  newImpl backend GuardedAlloc cfg size align w = (Returned p, w') ->
  p <> nullptr
  /\ backend_answer backend cfg size align (heap w) = (p, heap w')
  /\ guarded w' = guarded w.
Proof.
  intros Hje. unfold backend_answer. run_header. rewrite Hje.
  destruct align as [a|]; simpl;
    match goal with
    | |- context [je_malloc backend ?n ?h] => destruct (je_malloc backend n h) as [q h']
    | |- context [je_aligned_alloc backend ?x ?n ?h] =>
        destruct (je_aligned_alloc backend x n h) as [q h']
    end; simpl;
    destruct (q =? nullptr) eqn:Eq; simpl; intros E; inversion E; subst;
    null_tests; repeat split; assumption || reflexivity.
Qed.

(** C1, as the code has it.  In the jemalloc build, the backend whose size
    queries are precise, take a request of a size that is not zero: track
    it, allocate it with [newImpl], and untrack the pointer at any later
    time at which the block is still the one that was allocated and the
    guarded pool does not own it.  The size [untrackMemory] releases is
    the size [trackMemory] charged, whatever size the caller declares on
    deallocation: both are the size class jemalloc computes for the
    request. *)
Theorem size_symmetry_for_nonzero_sizes :
  PreciseSizeQueries backend ->
  USE_JEMALLOC cfg = true ->
  forall (size : size_t) (align : option size_t) (declared : size_t) (trace : Tr)
         (w w1 w2 later : W) (charged : size_t) (trace1 : Tr) (p : ptr),
    0 < size ->
    trackMemory backend CurrentMemoryTracker cfg size align w
      = (Returned (charged, trace1), w1) ->
    newImpl backend GuardedAlloc cfg size align w1 = (Returned p, w2) ->
    je_sallocx backend p (mallocx_flags backend align) (heap later)
      = je_sallocx backend p (mallocx_flags backend align) (heap w2) ->
    (USE_GWP_ASAN cfg = true -> pointerIsMine GuardedAlloc p (guarded later) = false) ->
    charged_sizes (calls w1) = charged_sizes (calls w) ++ [charged]
    /\ exists trace2 w3,
         untrackMemory backend GuardedAlloc CurrentMemoryTracker cfg
                       p trace declared align later
         = (Returned (charged, trace2), w3)
         /\ released_sizes (calls w3) = released_sizes (calls later) ++ [charged].
Proof.
  intros Hprecise Hje size align declared trace w w1 w2 later charged trace1 p
         Hsize Htrack Hnew Hframe Hmine.
  destruct (trackMemory_returns size align w) as (w1' & Et & _ & _ & _ & _ & Hch & _).
  rewrite Et in Htrack.
  assert (Hcharged : charged = resolved_size backend cfg size align) by congruence.
  assert (Hw1 : w1' = w1) by congruence.
  subst w1' charged. clear Htrack Et.
  split; [exact Hch|].
  destruct (newImpl_jemalloc_returned size align w1 w2 p Hje Hnew) as (Hp & Hans & _).
  destruct (untrackMemory_not_guarded p trace declared align later Hmine)
    as (w3 & Eu & _ & _ & _ & _ & Hrel & _).
  assert (Hsame : released_size backend cfg p declared align (heap later)
                  = resolved_size backend cfg size align).
  { unfold released_size, resolved_size. rewrite Hje. simpl.
    destruct (p =? nullptr) eqn:Ep; [null_tests; contradiction|].
    destruct (size =? 0) eqn:Es; [null_tests; lia|]. simpl.
    rewrite Hframe.
    unfold backend_answer in Hans. rewrite Hje in Hans.
    destruct align as [a|]; simpl.
    - eapply sallocx_of_je_aligned_alloc; eauto.
    - eapply sallocx_of_je_malloc; eauto. }
  rewrite Hsame in Eu, Hrel.
  do 2 eexists. split; [exact Eu | exact Hrel].
Qed.

(** C6, as the code has it.  For a pointer the guarded pool does not own,
    [untrackMemory] returns and releases, once,
    - in the jemalloc build: what [je_sallocx] reports for the pointer,
      whatever size the caller has declared, and 0 for the null pointer;
    - in the other builds: the declared size when it is not zero, else
      what [malloc_usable_size] reports when [_GNU_SOURCE] is defined,
      else 0. *)
Theorem untrackMemory_released_size :
  forall (p : ptr) (trace : Tr) (size : size_t) (align : option size_t) (w : W),
    (USE_GWP_ASAN cfg = true -> pointerIsMine GuardedAlloc p (guarded w) = false) ->
    let actual :=
      if USE_JEMALLOC cfg then
        if p =? nullptr then 0
        else je_sallocx backend p (mallocx_flags backend align) (heap w)
      else if negb (size =? 0) then size
      else if GNU_SOURCE cfg then malloc_usable_size backend p (heap w)
      else 0 in
    exists trace' w',
      untrackMemory backend GuardedAlloc CurrentMemoryTracker cfg p trace size align w
      = (Returned (actual, trace'), w')
      /\ released_sizes (calls w') = released_sizes (calls w) ++ [actual]
      /\ tracker w' = snd (tracker_free CurrentMemoryTracker actual (tracker w)).
Proof.
  intros p trace size align w Hmine actual.
  destruct (untrackMemory_not_guarded p trace size align w Hmine)
    as (w' & E & _ & _ & _ & Ht & Hrel & _).
  exists (match fst (tracker_free CurrentMemoryTracker actual (tracker w)) with
          | Some trace' => trace'
          | None => trace
          end), w'.
  repeat split; assumption.
Qed.

(** On a machine with 64-bit sizes no answer in size classes reaches the
    largest request: when [je_nallocx] answers the request of [SIZE_MAX]
    bytes with a multiple of 8 that fits in a [size_t], the resolver of
    the jemalloc build returns less than was asked for. *)
Lemma resolved_size_below_largest_request (align : option size_t) (w : W) :
  USE_JEMALLOC cfg = true ->
  0 <= je_nallocx backend Reference64.SIZE_MAX (mallocx_flags backend align)
    <= Reference64.SIZE_MAX ->
  (8 | je_nallocx backend Reference64.SIZE_MAX (mallocx_flags backend align)) ->
  exists actual,
    fst (getActualAllocationSize backend cfg Reference64.SIZE_MAX align w) = Returned actual
    /\ actual < Reference64.SIZE_MAX.
Proof.
  intros Hje Hfits [k Hk].
  destruct (getActualAllocationSize_returns Reference64.SIZE_MAX align w) as (l & E & _).
  rewrite E. simpl.
  eexists; split; [reflexivity|].
  unfold resolved_size. rewrite Hje.
  change (Reference64.SIZE_MAX =? 0) with false. simpl.
  unfold Reference64.SIZE_MAX in *. lia.
Qed.

(** C9, as the code has it.  [getActualAllocationSize] allocates nothing.
    In the jemalloc build and for a size that is not zero it returns what
    [je_nallocx] computes for the request; for the size zero, and in the
    builds without jemalloc, it returns the nominal size.  The resolver
    puts no bound of its own on the answer of [je_nallocx]: the result is
    at least the requested size when it is the nominal size, and otherwise
    exactly when the answer of [je_nallocx] is.  [trackMemory] returns
    the resolved size and charges it, and nothing else, to the tracker. *)
Theorem getActualAllocationSize_resolves :
  forall (size : size_t) (align : option size_t) (w : W),
    let actual :=
      if USE_JEMALLOC cfg && negb (size =? 0)
      then je_nallocx backend size (mallocx_flags backend align)
      else size in
    fst (getActualAllocationSize backend cfg size align w) = Returned actual
    /\ heap (snd (getActualAllocationSize backend cfg size align w)) = heap w
    /\ (size <= actual
        <-> (USE_JEMALLOC cfg = false \/ size = 0
             \/ size <= je_nallocx backend size (mallocx_flags backend align)))
    /\ exists trace w',
         trackMemory backend CurrentMemoryTracker cfg size align w
         = (Returned (actual, trace), w')
         /\ charged_sizes (calls w') = charged_sizes (calls w) ++ [actual]
         /\ (trace, tracker w') = allocNoThrow CurrentMemoryTracker actual (tracker w).
Proof.
  intros size align w actual.
  destruct (getActualAllocationSize_returns size align w) as (l & E & _).
  destruct (trackMemory_returns size align w) as (w' & Et & _ & _ & _ & Htr & Hch & _).
  fold (resolved_size backend cfg size align) in actual.
  rewrite E. simpl.
  split; [reflexivity|]. split; [reflexivity|]. split.
  - subst actual. unfold resolved_size.
    destruct (USE_JEMALLOC cfg); simpl.
    + destruct (size =? 0) eqn:Es; simpl; null_tests.
      * split; [intros _; right; left; exact Es | intros _; lia].
      * split; [intros Hle; right; right; exact Hle|].
        intros [Hfalse|[Hzero|Hle]]; [discriminate | contradiction | exact Hle].
    + split; [intros _; left; reflexivity | intros _; lia].
  - do 2 eexists. split; [exact Et|]. split; [exact Hch|].
    rewrite Htr. symmetry. apply surjective_pairing.
Qed.

End Accounting.

Section Errors.

Context {H G T Tr : Type}.
Variable backend : Backend H.
Variable GuardedAlloc : GuardedPoolAllocator G.
Variable CurrentMemoryTracker : MemoryTracker T Tr.
Variable cfg : Config.

Abbreviation W := (World H G T).

(** The throwing entry [newImpl] ends in one of two ways, for every size,
    alignment and state of the process.  Either it returns a pointer, and
    then the pointer is not null and is the one the backend or (on a
    sampled request of a build without jemalloc) the guarded pool answered;
    or it throws [std::bad_alloc], and then the backend was asked and
    answered null.  It never returns null, never throws anything else and
    never terminates the process. *)
Lemma newImpl_outcome (size : size_t) (align : option size_t) (w : W) :
  (exists p w',
      newImpl backend GuardedAlloc cfg size align w = (Returned p, w')
      /\ p <> nullptr
      /\ (p = fst (backend_answer backend cfg size align (heap w))
          \/ (USE_JEMALLOC cfg = false /\ USE_GWP_ASAN cfg = true
              /\ fst (shouldSample GuardedAlloc (guarded w)) = true
              /\ p = fst (guarded_answer GuardedAlloc size align (guarded w)))))
  \/ (exists w',
         newImpl backend GuardedAlloc cfg size align w = (Thrown bad_alloc, w')
         /\ fst (backend_answer backend cfg size align (heap w)) = nullptr
         /\ last (calls w') CallShouldSample = backend_call cfg size align).
Proof.
  unfold backend_answer, backend_call, guarded_answer.
  run_header.
  destruct (USE_JEMALLOC cfg), (USE_GWP_ASAN cfg), align as [a|]; simpl;
    repeat (split_match; simpl);
    null_tests;
    subst;
    first
      [ left; do 2 eexists; split; [reflexivity|]; split; [assumption|];
        first [ left; reflexivity | right; repeat split; reflexivity ]
      | right; eexists; split; [reflexivity|]; split; [reflexivity|];
        simpl; rewrite last_last; reflexivity ].
Qed.

(** [newNoExcept], [deleteImpl], [deleteSized] and [trackMemory] return,
    for every input and in every build: none of them throws and none of
    them terminates the process. *)
Lemma entries_that_always_return
    (size : size_t) (align : option size_t) (p : ptr) (w : W) :
  (exists q w', newNoExcept backend GuardedAlloc cfg size align w = (Returned q, w'))
  /\ (exists w', deleteImpl backend GuardedAlloc cfg p w = (Returned tt, w'))
  /\ (exists w', deleteSized backend GuardedAlloc cfg p size align w = (Returned tt, w'))
  /\ (exists r w',
         trackMemory backend CurrentMemoryTracker cfg size align w = (Returned r, w')).
Proof.
  run_header.
  repeat split;
    destruct (USE_JEMALLOC cfg), (USE_GWP_ASAN cfg), align as [a|]; simpl;
    repeat (split_match; simpl in * );
    repeat eexists.
Qed.

(** How [untrackMemory] ends, for every input and in every build.  For a
    pointer the guarded pool owns, in a build with sampling, it returns
    when the tracker returns and the process is terminated when the
    tracker throws.  In every other case it returns, whether the tracker
    throws or not.  It never lets an exception out. *)
Lemma untrackMemory_outcome
    (p : ptr) (trace : Tr) (size : size_t) (align : option size_t) (w : W) :
  fst (untrackMemory backend GuardedAlloc CurrentMemoryTracker cfg p trace size align w)
  = if USE_GWP_ASAN cfg && pointerIsMine GuardedAlloc p (guarded w) then
      let size' := if size =? 0 then getSize GuardedAlloc p (guarded w) else size in
      match fst (tracker_free CurrentMemoryTracker size' (tracker w)) with
      | Some trace' => Returned (size', trace')
      | None => Terminated
      end
    else
      let actual := released_size backend cfg p size align (heap w) in
      Returned (actual,
                match fst (tracker_free CurrentMemoryTracker actual (tracker w)) with
                | Some trace' => trace'
                | None => trace
                end).
Proof.
  unfold released_size, mallocx_flags.
  run_header.
  destruct (USE_GWP_ASAN cfg); simpl;
    [destruct (pointerIsMine GuardedAlloc p (guarded w)); simpl|];
    destruct (USE_JEMALLOC cfg), (GNU_SOURCE cfg), (p =? nullptr), (size =? 0),
      align as [a|]; simpl;
    match goal with
    | |- context [tracker_free CurrentMemoryTracker ?n ?t] =>
        destruct (tracker_free CurrentMemoryTracker n t) as [[trace'|] t']
    end; reflexivity.
Qed.

(** For a pointer the guarded pool owns, [untrackMemory] calls the tracker
    outside of the [try] block: when the tracker throws, the exception
    reaches the [noexcept] boundary. *)
Lemma untrackMemory_guarded
    (p : ptr) (trace : Tr) (size : size_t) (align : option size_t) (w : W) :
  USE_GWP_ASAN cfg = true ->
  pointerIsMine GuardedAlloc p (guarded w) = true ->
  let size' := if size =? 0 then getSize GuardedAlloc p (guarded w) else size in
  fst (untrackMemory backend GuardedAlloc CurrentMemoryTracker cfg p trace size align w)
  = match fst (tracker_free CurrentMemoryTracker size' (tracker w)) with
    | Some trace' => Returned (size', trace')
    | None => Terminated
    end.
Proof.
  intros Hgwp Hmine size'; subst size'.
  run_header. rewrite Hgwp, Hmine. simpl.
  destruct (size =? 0); simpl;
    match goal with
    | |- context [tracker_free CurrentMemoryTracker ?n ?t] =>
        destruct (tracker_free CurrentMemoryTracker n t) as [[trace'|] t']
    end; reflexivity.
Qed.

End Errors.

Section Counters.

Context {H G T Tr : Type}.
Variable backend : Backend H.
Variable GuardedAlloc : GuardedPoolAllocator G.
Variable CurrentMemoryTracker : MemoryTracker T Tr.
Variable cfg : Config.
Variable in_use : G -> nat.
Hypothesis slot_accounting : SlotAccounting GuardedAlloc in_use.

Abbreviation W := (World H G T).

Ltac count_calls :=
  unfold one_counter_per_call, slots_are_paid, counters_total,
    sampled_attempts, guarded_frees;
  simpl; rewrite ?filter_app, ?length_app; simpl; lia.

(** The promises of the pool, at the states a call from [w] can reach. *)
Ltac pool_promises w size align p :=
  pose proof (slots_shouldSample _ _ slot_accounting (guarded w));
  pose proof (slots_allocate _ _ slot_accounting size align
                (snd (shouldSample GuardedAlloc (guarded w))));
  pose proof (slots_allocate_failed _ _ slot_accounting size align
                (snd (shouldSample GuardedAlloc (guarded w))));
  pose proof (slots_deallocate _ _ slot_accounting p (guarded w)).

Ltac settle_call :=
  repeat (split_match; simpl in * );
  null_tests; subst;
  repeat match goal with
    | P : ?a = ?a -> _ |- _ => specialize (P eq_refl)
    end;
  split; count_calls.

Lemma exec_op_counters (op : Op Tr) (w : W) :
  let w' := snd (exec_op backend GuardedAlloc CurrentMemoryTracker cfg op w) in
  one_counter_per_call w w' /\ slots_are_paid in_use w w'.
Proof.
  destruct op as [size align|size align|p|p size align|size align|p trace size align];
    unfold exec_op, forget; simpl.
  - pool_promises w size align nullptr. run_header. destruct align; settle_call.
  - pool_promises w size align nullptr. run_header. destruct align; settle_call.
  - pool_promises w 0 (@None size_t) p. run_header. settle_call.
  - pool_promises w 0 (@None size_t) p. run_header. destruct align; settle_call.
  - run_header. destruct align; settle_call.
  - run_header. destruct align; settle_call.
Qed.

(** Over a whole trace the sums of the calls add up. *)
Lemma run_trace_counters (ops : list (Op Tr)) :
  forall w : W,
    let w' := run_trace backend GuardedAlloc CurrentMemoryTracker cfg ops w in
    (allocate_success (events w') + allocate_failed (events w')
       + sampled_attempts (calls w)
     = allocate_success (events w) + allocate_failed (events w)
       + sampled_attempts (calls w')
     /\ guarded_free (events w') + guarded_frees (calls w)
        = guarded_free (events w) + guarded_frees (calls w'))%nat
    /\ slots_are_paid in_use w w'.
Proof.
  induction ops as [|op ops IH]; intros w; simpl.
  - unfold slots_are_paid. repeat split; lia.
  - pose proof (exec_op_counters op w) as Hop. simpl in Hop.
    destruct (exec_op backend GuardedAlloc CurrentMemoryTracker cfg op w)
      as [alive w1]. simpl in Hop.
    destruct Hop as ((_ & _ & _ & _ & Hsum & Hfree) & Hpaid).
    destruct alive.
    + specialize (IH w1). simpl in IH.
      destruct IH as ((IHsum & IHfree) & IHpaid).
      unfold slots_are_paid in *. repeat split; lia.
    + unfold slots_are_paid in *. repeat split; lia.
Qed.

(** C8.  Run any sequence of calls of the entries of the header, in any
    build, from a state of the process in which the slots in use and the
    frees recorded are covered by recorded successes (as at the start of
    the process, where all are zero), against a guarded pool that accounts
    for its slots.  Then, over the trace, the successes and the failures
    have grown together by the number of sampled attempts, the frees have
    grown by the number of deallocations passed to the guarded pool, and
    the frees do not exceed the successes.  And every single call, from
    any state, leaves each counter at least where it was, raises the three
    of them by one at most in total, raises success or failure by one for
    the sampled attempt it makes, and raises the frees by one for the
    guarded deallocation it makes. *)
Theorem counter_conservation :
  forall (ops : list (Op Tr)) (w0 : W),
    frees_are_covered in_use w0 ->
    let w := run_trace backend GuardedAlloc CurrentMemoryTracker cfg ops w0 in
    (allocate_success (events w) + allocate_failed (events w)
       + sampled_attempts (calls w0)
     = allocate_success (events w0) + allocate_failed (events w0)
       + sampled_attempts (calls w)
     /\ guarded_free (events w) + guarded_frees (calls w0)
        = guarded_free (events w0) + guarded_frees (calls w)
     /\ guarded_free (events w) <= allocate_success (events w))%nat
    /\ forall (op : Op Tr) (w1 : W),
         one_counter_per_call
           w1 (snd (exec_op backend GuardedAlloc CurrentMemoryTracker cfg op w1)).
Proof.
  intros ops w0 Hcovered w.
  destruct (run_trace_counters ops w0) as ((Hsum & Hfree) & Hpaid).
  fold w in Hsum, Hfree, Hpaid.
  unfold frees_are_covered, slots_are_paid in *.
  split; [repeat split; lia|].
  intros op w1. apply exec_op_counters.
Qed.

End Counters.

(** ** The reference world keeps the promises *)

Lemma Reference_take_block (size : size_t) (flags : Z) (h h' : Reference.Heap) (p : ptr) :
  Reference.take_block size flags h = (p, h') ->
  p <> nullptr ->
  Reference.block_size p (Reference.blocks h') = Reference.size_class size flags.
Proof.
  unfold Reference.take_block.
  destruct (Reference.size_class size flags <=? Reference.room h).
  - intros E _. inversion E; subst; simpl. rewrite Z.eqb_refl. reflexivity.
  - intros E Hp. inversion E; subst. contradiction.
Qed.

Lemma Reference_precise : PreciseSizeQueries Reference.the_backend.
Proof.
  split; simpl.
  - intros size h p h' _ E Hp. exact (Reference_take_block size 0 h h' p E Hp).
  - intros align size h p h' _ E Hp.
    exact (Reference_take_block size (Z.log2 align) h h' p E Hp).
Qed.

Lemma Reference_free_null : FreeNullIsNoop Reference.the_backend.
Proof. intros h. reflexivity. Qed.

Lemma Reference_null_not_guarded : NullIsNotGuarded Reference.the_guarded_pool.
Proof. intros g. reflexivity. Qed.

Lemma Reference_drop_block_shrinks (p : ptr) (bs : list (ptr * size_t)) :
  Reference.owns p bs = true ->
  (S (length (Reference.drop_block p bs)) <= length bs)%nat.
Proof.
  unfold Reference.drop_block, Reference.owns.
  induction bs as [|[q s] bs IH]; simpl; [discriminate|].
  destruct (q =? p) eqn:E; simpl.
  - intros _. apply le_n_S. apply filter_length_le.
  - intros Hown. specialize (IH Hown). lia.
Qed.

Lemma Reference_slot_accounting :
  SlotAccounting Reference.the_guarded_pool (fun g => length (Reference.slots g)).
Proof.
  split; simpl.
  - intros g. destruct (Reference.decisions g); reflexivity.
  - intros size align g. unfold Reference.slot_address, nullptr.
    destruct (Reference.free_slots g); cbn [fst snd Reference.slots]; intros E; lia.
  - intros size align g. destruct (Reference.free_slots g); simpl; lia.
  - intros p g Hmine. apply andb_true_iff in Hmine. destruct Hmine as [_ Hown].
    apply Reference_drop_block_shrinks. exact Hown.
Qed.

(** ** The theorems on the reference world *)

Import Reference.

(** C1 holds on a request of 40 bytes aligned to 16: 48 bytes are charged,
    and 48 bytes are released for the pointer. *)
Lemma size_symmetry_witness :
  let w := fresh in
  let w1 := snd (trackMemory the_backend the_tracker jemalloc_gwp_build 40 (Some 16) w) in
  let w2 := snd (newImpl the_backend the_guarded_pool jemalloc_gwp_build 40 (Some 16) w1) in
  0 < 40
  /\ charged_sizes (calls w1) = charged_sizes (calls w) ++ [48]
  /\ exists trace2 w3,
       untrackMemory the_backend the_guarded_pool the_tracker jemalloc_gwp_build
                     4096 0 0 (Some 16) w2
       = (Returned (48, trace2), w3)
       /\ released_sizes (calls w3) = released_sizes (calls w2) ++ [48].
Proof.
  intros w w1 w2.
  split; [reflexivity|].
  exact (size_symmetry_for_nonzero_sizes
           the_backend the_guarded_pool the_tracker jemalloc_gwp_build
           Reference_precise eq_refl
           40 (Some 16) 0 0 w w1 w2 w2 48 48 4096
           eq_refl eq_refl eq_refl eq_refl (fun _ => eq_refl)).
Defined.

(** C1 fails on a request of no bytes: nothing is charged, the backend
    hands out a block of its smallest class, and 8 bytes are released for
    it. *)
Lemma size_symmetry_fails_at_zero_size :
  let w := fresh in
  let tracked := trackMemory the_backend the_tracker jemalloc_build 0 None w in
  let allocated := newImpl the_backend the_guarded_pool jemalloc_build 0 None (snd tracked) in
  let untracked :=
    untrackMemory the_backend the_guarded_pool the_tracker jemalloc_build
                  4096 0 0 None (snd allocated) in
  fst tracked = Returned (0, 0)
  /\ fst allocated = Returned 4096
  /\ fst untracked = Returned (8, -8)
  /\ charged_sizes (calls (snd untracked)) = [0]
  /\ released_sizes (calls (snd untracked)) = [8]
  /\ charged_sizes (calls (snd untracked)) <> released_sizes (calls (snd untracked)).
Proof.
  vm_compute. repeat split; try reflexivity. discriminate.
Qed.

(** C2 on a pointer the pool owns and on one it does not own, in the build
    with sampling and without jemalloc. *)
Lemma deallocation_routing_witness :
  let w := snd (newNoExcept the_backend the_guarded_pool libc_gwp_build 8 None sampling) in
  USE_GWP_ASAN libc_gwp_build = true
  /\ pointerIsMine the_guarded_pool (slot_address 0) (guarded w) = true
  /\ deleteImpl the_backend the_guarded_pool libc_gwp_build (slot_address 0) w
     = (Returned tt, freed_by_guard the_guarded_pool (slot_address 0) w)
  /\ deleteSized the_backend the_guarded_pool libc_gwp_build (slot_address 0) 8 None w
     = (Returned tt, freed_by_guard the_guarded_pool (slot_address 0) w)
  /\ calls (snd (deleteImpl the_backend the_guarded_pool libc_gwp_build 4096 w))
     = calls w ++ [CallPointerIsMine 4096; CallFree 4096].
Proof.
  intros w.
  split; [reflexivity|]. split; [reflexivity|].
  destruct (deallocation_routing the_backend the_guarded_pool libc_gwp_build
              eq_refl (slot_address 0) 8 None w) as [Himpl Hsized].
  destruct (deallocation_routing the_backend the_guarded_pool libc_gwp_build
              eq_refl 4096 8 None w) as [Hother _].
  split; [exact Himpl|]. split; [exact Hsized|].
  rewrite Hother. reflexivity.
Defined.

(** C2 fails in the build with jemalloc and sampling: [deleteImpl] does not
    ask the guarded pool. *)
Lemma deleteImpl_jemalloc_does_not_ask_guard :
  USE_GWP_ASAN jemalloc_gwp_build = true
  /\ calls (snd (deleteImpl the_backend the_guarded_pool jemalloc_gwp_build 4096 fresh))
     = [CallJeFree 4096]
  /\ ~ asks_guard_first_on_free the_backend the_guarded_pool (T := Usage) jemalloc_gwp_build.
Proof.
  split; [reflexivity|]. split; [reflexivity|].
  intros Hasks.
  destruct (Hasks 4096 0 None fresh) as [[rest Hrest] _].
  vm_compute in Hrest. discriminate Hrest.
Qed.

(** C5 on a sampled request that the pool serves, on one that finds the
    pool full and on one that is not sampled. *)
Lemma newNoExcept_offers_to_guard_first_witness :
  let served := newNoExcept the_backend the_guarded_pool libc_gwp_build 8 None sampling in
  let refused := newNoExcept the_backend the_guarded_pool libc_gwp_build 16 (Some 16) (snd served) in
  let missed := newNoExcept the_backend the_guarded_pool libc_gwp_build 24 None (snd refused) in
  USE_GWP_ASAN libc_gwp_build = true
  /\ USE_JEMALLOC libc_gwp_build = false
  /\ fst served = Returned (slot_address 0)
  /\ calls (snd served)
     = [CallShouldSample; CallGuardedAllocate 8 None; CallIncrement GWPAsanAllocateSuccess]
  /\ fst refused = Returned 4096
  /\ calls (snd refused)
     = calls (snd served)
       ++ [CallShouldSample; CallGuardedAllocate 16 (Some 16);
           CallIncrement GWPAsanAllocateFailed; CallAlignedAlloc 16 16]
  /\ fst missed = Returned 4112
  /\ calls (snd missed) = calls (snd refused) ++ [CallShouldSample; CallMalloc 24].
Proof.
  intros served refused missed.
  split; [reflexivity|]. split; [reflexivity|].
  pose proof (newNoExcept_default_offers_to_guard_first
                the_backend the_guarded_pool libc_gwp_build eq_refl eq_refl
                8 None sampling) as Hserved.
  pose proof (newNoExcept_default_offers_to_guard_first
                the_backend the_guarded_pool libc_gwp_build eq_refl eq_refl
                16 (Some 16) (snd served)) as Hrefused.
  pose proof (newNoExcept_default_offers_to_guard_first
                the_backend the_guarded_pool libc_gwp_build eq_refl eq_refl
                24 None (snd refused)) as Hmissed.
  subst missed. rewrite Hmissed.
  subst refused. rewrite Hrefused.
  subst served. rewrite Hserved.
  repeat split; reflexivity.
Defined.

(** C5 fails in the build with jemalloc and sampling: [newNoExcept] goes to
    [je_malloc] without asking whether to sample. *)
Lemma newNoExcept_jemalloc_does_not_offer_to_guard :
  USE_GWP_ASAN jemalloc_gwp_build = true
  /\ calls (snd (newNoExcept the_backend the_guarded_pool jemalloc_gwp_build 8 None sampling))
     = [CallJeMalloc 8]
  /\ ~ offers_to_guard_first the_backend the_guarded_pool (T := Usage) jemalloc_gwp_build.
Proof.
  split; [reflexivity|]. split; [reflexivity|].
  intros Hoffers.
  destruct (Hoffers 8 None sampling) as [rest Hrest].
  vm_compute in Hrest. discriminate Hrest.
Qed.

(** C6 in the build without jemalloc: the declared size is released when
    there is one, the usable size otherwise. *)
Lemma untrackMemory_released_size_witness :
  let w := snd (newImpl the_backend the_guarded_pool libc_gwp_build 33 None fresh) in
  pointerIsMine the_guarded_pool 4096 (guarded w) = false
  /\ (exists trace' w',
         untrackMemory the_backend the_guarded_pool the_tracker libc_gwp_build 4096 0 33 None w
         = (Returned (33, trace'), w')
         /\ released_sizes (calls w') = released_sizes (calls w) ++ [33]
         /\ tracker w' = snd (tracker_free the_tracker 33 (tracker w)))
  /\ (exists trace' w',
         untrackMemory the_backend the_guarded_pool the_tracker libc_gwp_build 4096 0 0 None w
         = (Returned (40, trace'), w')
         /\ released_sizes (calls w') = released_sizes (calls w) ++ [40]
         /\ tracker w' = snd (tracker_free the_tracker 40 (tracker w))).
Proof.
  intros w.
  split; [reflexivity|].
  split.
  - exact (untrackMemory_released_size
             the_backend the_guarded_pool the_tracker libc_gwp_build
             4096 0 33 None w (fun _ => eq_refl)).
  - exact (untrackMemory_released_size
             the_backend the_guarded_pool the_tracker libc_gwp_build
             4096 0 0 None w (fun _ => eq_refl)).
Defined.

(** C6 fails in the jemalloc build: the caller declares the 33 bytes it
    asked for, and the 40 bytes of the block are released. *)
Lemma untrackMemory_jemalloc_ignores_declared_size :
  let w := snd (newImpl the_backend the_guarded_pool jemalloc_build 33 None fresh) in
  let untracked :=
    untrackMemory the_backend the_guarded_pool the_tracker jemalloc_build 4096 0 33 None w in
  fst (newImpl the_backend the_guarded_pool jemalloc_build 33 None fresh) = Returned 4096
  /\ released_size_by_preference the_backend jemalloc_build 4096 33 None (heap w) = 33
  /\ fst untracked = Returned (40, -40)
  /\ released_sizes (calls (snd untracked)) = [40]
  /\ fst untracked
     <> Returned (released_size_by_preference the_backend jemalloc_build 4096 33 None (heap w),
                  -40).
Proof.
  vm_compute. repeat split; try reflexivity. discriminate.
Qed.

(** C3.  [newImpl] does what is asked of it: in every build and for every
    request it returns a pointer that is not null, or it throws
    [std::bad_alloc] after the backend has answered null.  [newNoExcept],
    [deleteImpl], [deleteSized] and [trackMemory] always return.  But
    [std::bad_alloc] is not the only failure that leaves the header:
    [untrackMemory] ends in [std::terminate] when the pointer is owned by
    the guarded pool and the tracker throws, and in no other case.  The
    second part runs it: a request is sampled and served by the pool, the
    tracker throws on release, and the process is terminated, with a size
    declared and without. *)
Theorem bad_alloc_is_not_the_only_failure_surfaced :
  (forall (H G T Tr : Type) (backend : Backend H) (GuardedAlloc : GuardedPoolAllocator G)
          (CurrentMemoryTracker : MemoryTracker T Tr) (cfg : Config)
          (size declared : size_t) (align : option size_t) (p : ptr) (trace : Tr)
          (w : World H G T),
      ((exists q w',
           newImpl backend GuardedAlloc cfg size align w = (Returned q, w')
           /\ q <> nullptr)
       \/ (exists w',
              newImpl backend GuardedAlloc cfg size align w = (Thrown bad_alloc, w')
              /\ fst (backend_answer backend cfg size align (heap w)) = nullptr))
      /\ (exists q w', newNoExcept backend GuardedAlloc cfg size align w = (Returned q, w'))
      /\ (exists w', deleteImpl backend GuardedAlloc cfg p w = (Returned tt, w'))
      /\ (exists w', deleteSized backend GuardedAlloc cfg p declared align w = (Returned tt, w'))
      /\ (exists r w',
             trackMemory backend CurrentMemoryTracker cfg size align w = (Returned r, w'))
      /\ fst (untrackMemory backend GuardedAlloc CurrentMemoryTracker cfg
                            p trace declared align w)
         = if USE_GWP_ASAN cfg && pointerIsMine GuardedAlloc p (guarded w) then
             let size' :=
               if declared =? 0 then getSize GuardedAlloc p (guarded w) else declared in
             match fst (tracker_free CurrentMemoryTracker size' (tracker w)) with
             | Some trace' => Returned (size', trace')
             | None => Terminated
             end
           else
             let actual := released_size backend cfg p declared align (heap w) in
             Returned (actual,
                       match fst (tracker_free CurrentMemoryTracker actual (tracker w)) with
                       | Some trace' => trace'
                       | None => trace
                       end))
  /\ (let allocated :=
        newImpl the_backend the_guarded_pool libc_gwp_build 8 None
                sampling_with_throwing_tracker in
      let w := snd allocated in
      fst allocated = Returned (slot_address 0)
      /\ pointerIsMine the_guarded_pool (slot_address 0) (guarded w) = true
      /\ fst (tracker_free the_tracker 8 (tracker w)) = None
      /\ fst (untrackMemory the_backend the_guarded_pool the_tracker libc_gwp_build
                            (slot_address 0) 0 0 None w) = Terminated
      /\ fst (untrackMemory the_backend the_guarded_pool the_tracker libc_gwp_build
                            (slot_address 0) 0 8 None w) = Terminated).
Proof.
  split.
  - intros H G T Tr backend GuardedAlloc CurrentMemoryTracker cfg
           size declared align p trace w.
    split.
    { destruct (newImpl_outcome backend GuardedAlloc cfg size align w)
        as [(q & w' & E & Hq & _) | (w' & E & Hnull & _)].
      - left. exists q, w'. split; assumption.
      - right. exists w'. split; assumption. }
    destruct (entries_that_always_return
                backend GuardedAlloc CurrentMemoryTracker cfg size align p w)
      as (Hnew & Hdel & _ & Htrack).
    destruct (entries_that_always_return
                backend GuardedAlloc CurrentMemoryTracker cfg declared align p w)
      as (_ & _ & Hsized & _).
    repeat (split; [assumption|]).
    apply untrackMemory_outcome.
  - vm_compute. repeat split; reflexivity.
Qed.

(** C7 fails on a pointer the guarded pool owns: when the tracker throws
    on release, [untrackMemory] does not return, the process is
    terminated; on a pointer of the backend the same tracker is survived. *)
Theorem untrackMemory_terminates_on_guarded_pointer :
  let w :=
    snd (newNoExcept the_backend the_guarded_pool libc_gwp_build 8 None
                     sampling_with_throwing_tracker) in
  let w' := snd (newNoExcept the_backend the_guarded_pool libc_gwp_build 8 None w) in
  fst (newNoExcept the_backend the_guarded_pool libc_gwp_build 8 None
                   sampling_with_throwing_tracker) = Returned (slot_address 0)
  /\ pointerIsMine the_guarded_pool (slot_address 0) (guarded w') = true
  /\ fst (tracker_free the_tracker 8 (tracker w')) = None
  /\ fst (untrackMemory the_backend the_guarded_pool the_tracker libc_gwp_build
                        (slot_address 0) 0 0 None w') = Terminated
  /\ fst (untrackMemory the_backend the_guarded_pool the_tracker libc_gwp_build
                        (slot_address 0) 0 8 None w') = Terminated
  /\ fst (untrackMemory the_backend the_guarded_pool the_tracker libc_gwp_build
                        4096 0 8 None w') = Returned (8, 0).
Proof.
  vm_compute. repeat split; reflexivity.
Qed.

(** C8 on a trace of two sampled allocations, the second of which finds
    the pool full, one allocation that is not sampled, and the frees of
    all three pointers. *)
Lemma counter_conservation_witness :
  let ops : list (Op Z) :=
    [OpNewNoExcept 8 None; OpNewImpl 16 (Some 16); OpNewImpl 24 None;
     OpDeleteImpl (slot_address 0); OpDeleteSized 4096 16 (Some 16);
     OpDeleteImpl 4112] in
  let w := run_trace the_backend the_guarded_pool the_tracker libc_gwp_build ops sampling in
  frees_are_covered (fun g => length (slots g)) sampling
  /\ events w = mkCounters 1 1 1
  /\ sampled_attempts (calls w) = 2%nat
  /\ guarded_frees (calls w) = 1%nat
  /\ (allocate_success (events w) + allocate_failed (events w)
        + sampled_attempts (calls sampling)
      = allocate_success (events sampling) + allocate_failed (events sampling)
        + sampled_attempts (calls w)
      /\ guarded_free (events w) + guarded_frees (calls sampling)
         = guarded_free (events sampling) + guarded_frees (calls w)
      /\ guarded_free (events w) <= allocate_success (events w))%nat.
Proof.
  intros ops w.
  assert (Hcovered : frees_are_covered (fun g => length (slots g)) sampling)
    by (unfold frees_are_covered; simpl; lia).
  split; [exact Hcovered|].
  split; [reflexivity|]. split; [reflexivity|]. split; [reflexivity|].
  exact (proj1 (counter_conservation
                  the_backend the_guarded_pool the_tracker libc_gwp_build
                  (fun g => length (slots g)) Reference_slot_accounting
                  ops sampling Hcovered)).
Defined.

(** C9 on a request of 40 bytes aligned to 16 in the jemalloc build. *)
Lemma getActualAllocationSize_resolves_witness :
  fst (getActualAllocationSize the_backend (G := Pool) (T := Usage)
         jemalloc_build 40 (Some 16) fresh) = Returned 48
  /\ heap (snd (getActualAllocationSize the_backend jemalloc_build 40 (Some 16) fresh))
     = heap fresh
  /\ (40 <= 48
      <-> (USE_JEMALLOC jemalloc_build = false \/ 40 = 0
           \/ 40 <= je_nallocx the_backend 40 (mallocx_flags the_backend (Some 16))))
  /\ exists trace w',
       trackMemory the_backend the_tracker jemalloc_build 40 (Some 16) fresh
       = (Returned (48, trace), w')
       /\ charged_sizes (calls w') = charged_sizes (calls fresh) ++ [48]
       /\ (trace, tracker w') = allocNoThrow the_tracker 48 (tracker fresh).
Proof.
  exact (getActualAllocationSize_resolves
           the_backend the_tracker jemalloc_build 40 (Some 16) fresh).
Defined.

(** C9 fails twice in the jemalloc build.  On a request of no bytes the
    resolver answers 0, and the backend commits a block of 8 bytes to the
    request.  On the largest request a [size_t] can hold, against the
    backend whose size classes fit in a [size_t], the resolver answers 0,
    which is less than was asked for, and [trackMemory] charges 0. *)
Lemma getActualAllocationSize_is_neither_committed_nor_at_least_requested :
  (fst (getActualAllocationSize the_backend (G := Pool) (T := Usage)
          jemalloc_build 0 None fresh) = Returned 0
   /\ fst (backend_answer the_backend jemalloc_build 0 None (heap fresh)) = 4096
   /\ committed_size the_backend jemalloc_build 0 None (heap fresh) = 8
   /\ fst (getActualAllocationSize the_backend (G := Pool) (T := Usage)
             jemalloc_build 0 None fresh)
      <> Returned (committed_size the_backend jemalloc_build 0 None (heap fresh)))
  /\ (0 <= Reference64.SIZE_MAX < 2 ^ 64
      /\ fst (getActualAllocationSize Reference64.the_backend (G := Pool) (T := Usage)
                jemalloc_build Reference64.SIZE_MAX None fresh) = Returned 0
      /\ ~ (Reference64.SIZE_MAX <= 0)
      /\ charged_sizes
           (calls (snd (trackMemory Reference64.the_backend the_tracker jemalloc_build
                                    Reference64.SIZE_MAX None fresh))) = [0]).
Proof.
  split.
  - vm_compute. repeat split; try reflexivity. discriminate.
  - repeat split;
      first [ reflexivity | unfold Reference64.SIZE_MAX; lia ].
Qed.

(** C10 in the build with sampling and without jemalloc, where the null
    pointer travels to [pointerIsMine] and to [free]. *)
Lemma deleteSized_null_is_noop_witness :
  exists w' added,
    deleteSized the_backend the_guarded_pool libc_gwp_build nullptr 8 (Some 16) sampling
    = (Returned tt, w')
    /\ heap w' = heap sampling
    /\ guarded w' = guarded sampling
    /\ tracker w' = tracker sampling
    /\ events w' = events sampling
    /\ calls w' = calls sampling ++ added
    /\ filter is_guarded_deallocate added = []
    /\ filter is_increment added = []
    /\ (forall c, In c added -> is_backend_free c = true -> c = CallFree nullptr).
Proof.
  exact (deleteSized_null_is_noop
           the_backend the_guarded_pool libc_gwp_build
           Reference_free_null Reference_null_not_guarded 8 (Some 16) sampling).
Defined.

(** * Further properties of the header *)

Section Entries.

Context {H G T Tr : Type}.
Variable backend : Backend H.
Variable GuardedAlloc : GuardedPoolAllocator G.
Variable CurrentMemoryTracker : MemoryTracker T Tr.
Variable cfg : Config.

Abbreviation W := (World H G T).

Ltac settle_log :=
  simpl; rewrite ?filter_app, ?charged_sizes_app, ?released_sizes_app; simpl;
  rewrite ?app_nil_r; repeat split; reflexivity.

(** X1.  [newImpl] is [newNoExcept] followed by a test of the pointer: in
    every build, for every request and state, both make the same calls and
    leave the same state behind, and [newImpl] returns what [newNoExcept]
    returns unless that is null, which it turns into [std::bad_alloc]. *)
Theorem newImpl_is_checked_newNoExcept :
  forall (size : size_t) (align : option size_t) (w : W),
    newImpl backend GuardedAlloc cfg size align w =
    match newNoExcept backend GuardedAlloc cfg size align w with
    | (Returned p, w') =>
        if p =? nullptr then (Thrown bad_alloc, w') else (Returned p, w')
    | r => r
    end.
Proof.
  intros size align w.
  run_header.
  destruct (USE_JEMALLOC cfg), (USE_GWP_ASAN cfg), align as [a|]; simpl;
    repeat (split_match; simpl in * ); try reflexivity; try congruence.
Qed.

(** X2.  The entries that allocate and free do no accounting: [newImpl],
    [newNoExcept], [deleteImpl] and [deleteSized] leave the tracker as it
    is and never call it, in every build and whatever the outcome. *)
Theorem allocation_entries_leave_the_tracker_alone :
  forall (size : size_t) (align : option size_t) (p : ptr) (w : W),
    let untouched (w' : W) :=
      tracker w' = tracker w
      /\ filter is_tracker_call (calls w') = filter is_tracker_call (calls w) in
    untouched (snd (newImpl backend GuardedAlloc cfg size align w))
    /\ untouched (snd (newNoExcept backend GuardedAlloc cfg size align w))
    /\ untouched (snd (deleteImpl backend GuardedAlloc cfg p w))
    /\ untouched (snd (deleteSized backend GuardedAlloc cfg p size align w)).
Proof.
  intros size align p w untouched; subst untouched.
  run_header.
  repeat split;
    destruct (USE_JEMALLOC cfg), (USE_GWP_ASAN cfg), align as [a|]; simpl;
    repeat (split_match; simpl in * ); settle_log.
Qed.

(** X3.  The accounting operations take and give no memory:
    [getActualAllocationSize], [trackMemory] and [untrackMemory] leave the
    heap, the guarded pool and the three counters as they are, and make no
    call that allocates, frees or counts; this holds also when
    [untrackMemory] ends in termination. *)
Theorem accounting_leaves_the_allocators_alone :
  forall (size : size_t) (align : option size_t) (p : ptr) (trace : Tr) (w : W),
    let untouched (w' : W) :=
      heap w' = heap w
      /\ guarded w' = guarded w
      /\ events w' = events w
      /\ filter is_allocator_call (calls w') = filter is_allocator_call (calls w) in
    untouched (snd (getActualAllocationSize backend cfg size align w))
    /\ untouched (snd (trackMemory backend CurrentMemoryTracker cfg size align w))
    /\ untouched (snd (untrackMemory backend GuardedAlloc CurrentMemoryTracker cfg
                                     p trace size align w)).
Proof.
  intros size align p trace w untouched; subst untouched.
  run_header.
  repeat split;
    destruct (USE_JEMALLOC cfg), (USE_GWP_ASAN cfg), (GNU_SOURCE cfg), align as [a|]; simpl;
    repeat (split_match; simpl in * ); settle_log.
Qed.

(** X4.  Every call of an accounting operation reaches the tracker, and
    reaches it once: [trackMemory] makes one call of [allocNoThrow] and
    none of [free], [untrackMemory] makes one call of [free] and none of
    [allocNoThrow].  This holds for a size of zero and for the null
    pointer, for a pointer of either allocator, and also when the tracker
    throws. *)
Theorem accounting_reaches_the_tracker_once :
  forall (size : size_t) (align : option size_t) (p : ptr) (trace : Tr) (w : W),
    (exists n,
        charged_sizes (calls (snd (trackMemory backend CurrentMemoryTracker cfg size align w)))
        = charged_sizes (calls w) ++ [n]
        /\ released_sizes (calls (snd (trackMemory backend CurrentMemoryTracker cfg size align w)))
           = released_sizes (calls w))
    /\ (exists n,
           released_sizes
             (calls (snd (untrackMemory backend GuardedAlloc CurrentMemoryTracker cfg
                                        p trace size align w)))
           = released_sizes (calls w) ++ [n]
           /\ charged_sizes
                (calls (snd (untrackMemory backend GuardedAlloc CurrentMemoryTracker cfg
                                           p trace size align w)))
              = charged_sizes (calls w)).
Proof.
  intros size align p trace w.
  run_header.
  split;
    destruct (USE_JEMALLOC cfg), (USE_GWP_ASAN cfg), (GNU_SOURCE cfg), align as [a|]; simpl;
    repeat (split_match; simpl in * ); eexists; settle_log.
Qed.

(** X5.  Without jemalloc the declared size and alignment of [deleteSized]
    have no effect: the call does what [deleteImpl] does on the pointer. *)
Theorem deleteSized_is_deleteImpl_without_jemalloc :
  USE_JEMALLOC cfg = false ->
  forall (p : ptr) (size : size_t) (align : option size_t) (w : W),
    deleteSized backend GuardedAlloc cfg p size align w
    = deleteImpl backend GuardedAlloc cfg p w.
Proof.
  intros Hje p size align w.
  unfold deleteSized, deleteImpl. rewrite Hje. reflexivity.
Qed.

(** X6.  Without jemalloc a sized deallocation releases what the
    allocation has charged.  For a request of a size that is not zero,
    [trackMemory] charges the size itself, whatever the alignment, and
    [untrackMemory], given that size, asks the tracker to release that
    size, for every pointer (null, of the backend or of the guarded pool)
    and in every state, without asking anyone for the size of the block.
    It then returns that size, or the process is terminated. *)
Theorem sized_release_matches_charge_without_jemalloc :
  USE_JEMALLOC cfg = false ->
  forall (size : size_t) (align align' : option size_t) (p : ptr) (trace : Tr) (w later : W),
    0 < size ->
    let tracked := trackMemory backend CurrentMemoryTracker cfg size align w in
    let untracked :=
      untrackMemory backend GuardedAlloc CurrentMemoryTracker cfg p trace size align' later in
    (exists trace1, fst tracked = Returned (size, trace1))
    /\ charged_sizes (calls (snd tracked)) = charged_sizes (calls w) ++ [size]
    /\ released_sizes (calls (snd untracked)) = released_sizes (calls later) ++ [size]
    /\ filter is_size_query (calls (snd untracked)) = filter is_size_query (calls later)
    /\ ((exists trace2, fst untracked = Returned (size, trace2))
        \/ fst untracked = Terminated).
Proof.
  intros Hje size align align' p trace w later Hsize tracked untracked.
  subst tracked untracked.
  assert (Hnz : (size =? 0) = false) by (apply Z.eqb_neq; lia).
  run_header. rewrite Hje, Hnz. simpl.
  repeat split.
  - destruct (allocNoThrow CurrentMemoryTracker size (tracker w)); simpl. eexists; reflexivity.
  - destruct (allocNoThrow CurrentMemoryTracker size (tracker w)); settle_log.
  - destruct (USE_GWP_ASAN cfg); simpl; repeat (split_match; simpl in * ); settle_log.
  - destruct (USE_GWP_ASAN cfg); simpl; repeat (split_match; simpl in * ); settle_log.
  - destruct (USE_GWP_ASAN cfg); simpl; repeat (split_match; simpl in * );
      first [ left; eexists; reflexivity | right; reflexivity ].
Qed.

(** X7.  For a pointer the guarded pool owns, in a build with sampling,
    [untrackMemory] asks the pool whether the pointer is its own, takes
    the size the caller declares or, when none is declared, the size the
    pool reports, and passes it to the tracker.  The backend is not asked
    for the size of the block, in the jemalloc build either.  When the
    tracker returns, the call returns that size and the new trace; when
    the tracker throws, the process is terminated.  The heap, the pool and
    the counters are not changed. *)
Theorem untrackMemory_of_guarded_pointer :
  USE_GWP_ASAN cfg = true ->
  forall (p : ptr) (trace : Tr) (size : size_t) (align : option size_t) (w : W),
    pointerIsMine GuardedAlloc p (guarded w) = true ->
    let size' := if size =? 0 then getSize GuardedAlloc p (guarded w) else size in
    untrackMemory backend GuardedAlloc CurrentMemoryTracker cfg p trace size align w
    = (match fst (tracker_free CurrentMemoryTracker size' (tracker w)) with
       | Some trace' => Returned (size', trace')
       | None => Terminated
       end,
       mkWorld (heap w) (guarded w)
               (snd (tracker_free CurrentMemoryTracker size' (tracker w)))
               (events w)
               (calls w ++ [CallPointerIsMine p]
                        ++ (if size =? 0 then [CallGetSize p] else [])
                        ++ [CallTrackerFree size'])).
Proof.
  intros Hgwp p trace size align w Hmine size'; subst size'.
  run_header. rewrite Hgwp, Hmine. simpl.
  destruct (size =? 0); simpl;
    match goal with
    | |- context [tracker_free CurrentMemoryTracker ?n ?t] =>
        destruct (tracker_free CurrentMemoryTracker n t) as [[trace'|] t']
    end; simpl; rewrite <- ?app_assoc; reflexivity.
Qed.

(** X8.  An allocation is served by one allocator.  In every build, for
    [newImpl] and for [newNoExcept], either the guarded pool has served
    the request: then it was asked once, the pointer returned is not null,
    the backend was not called and the heap is as before; or the request
    has gone to the backend: then the backend was called once, with the
    size and alignment of the request, the heap is the one the backend
    leaves, and the guarded pool was asked once at most. *)
Theorem allocation_is_served_by_one_allocator :
  forall (size : size_t) (align : option size_t) (w : W),
    let served_by_one (r : result ptr * W) :=
      exists added,
        calls (snd r) = calls w ++ added
        /\ ((filter is_backend_alloc added = []
             /\ filter is_guarded_allocate added = [CallGuardedAllocate size align]
             /\ heap (snd r) = heap w
             /\ exists p, fst r = Returned p /\ p <> nullptr)
            \/ (filter is_backend_alloc added = [backend_call cfg size align]
                /\ heap (snd r) = snd (backend_answer backend cfg size align (heap w))
                /\ (length (filter is_guarded_allocate added) <= 1)%nat)) in
    served_by_one (newImpl backend GuardedAlloc cfg size align w)
    /\ served_by_one (newNoExcept backend GuardedAlloc cfg size align w).
Proof.
  intros size align w served_by_one; subst served_by_one.
  unfold backend_call, backend_answer.
  run_header.
  split;
    destruct (USE_JEMALLOC cfg), (USE_GWP_ASAN cfg), align as [a|]; simpl;
    repeat (split_match; simpl in * ); null_tests; subst;
    match goal with
    | |- exists added, ?l ++ [?c1] = ?l ++ added /\ _ => exists [c1]
    | |- exists added, (?l ++ [?c1]) ++ [?c2] = ?l ++ added /\ _ => exists [c1; c2]
    | |- exists added, ((?l ++ [?c1]) ++ [?c2]) ++ [?c3] = ?l ++ added /\ _ =>
        exists [c1; c2; c3]
    | |- exists added, (((?l ++ [?c1]) ++ [?c2]) ++ [?c3]) ++ [?c4] = ?l ++ added /\ _ =>
        exists [c1; c2; c3; c4]
    end;
    (split; [rewrite <- ?app_assoc; reflexivity|]); simpl;
    first [ left; repeat split; try reflexivity; eexists; split; [reflexivity|assumption]
          | right; repeat split; try reflexivity; lia ].
Qed.

End Entries.

Section Builds.

Context {H G T Tr : Type}.
Variable backend : Backend H.
Variable GuardedAlloc : GuardedPoolAllocator G.
Variable CurrentMemoryTracker : MemoryTracker T Tr.
Variable cfg : Config.

Abbreviation W := (World H G T).

Ltac settle_filter :=
  simpl; rewrite ?filter_app; simpl; rewrite ?app_nil_r; repeat split; reflexivity.

(** One call in a build without sampling. *)
Lemma exec_op_without_sampling (op : Op Tr) (w : W) :
  USE_GWP_ASAN cfg = false ->
  let w' := snd (exec_op backend GuardedAlloc CurrentMemoryTracker cfg op w) in
  guarded w' = guarded w
  /\ events w' = events w
  /\ filter is_guard_call (calls w') = filter is_guard_call (calls w).
Proof.
  intros Hgwp.
  destruct op as [size align|size align|p|p size align|size align|p trace size align];
    unfold exec_op, forget; simpl; run_header; rewrite ?Hgwp;
    destruct (USE_JEMALLOC cfg), (GNU_SOURCE cfg); try destruct align; simpl;
    repeat (split_match; simpl in * ); settle_filter.
Qed.

(** X9.  A build without sampling never touches the guarded pool: over
    every sequence of calls of the entries of the header the pool and the
    three counters stay as they were, and no call of [GWPAsan] or of
    [ProfileEvents] is made. *)
Theorem no_sampling_without_gwp_asan :
  USE_GWP_ASAN cfg = false ->
  forall (ops : list (Op Tr)) (w0 : W),
    let w := run_trace backend GuardedAlloc CurrentMemoryTracker cfg ops w0 in
    guarded w = guarded w0
    /\ events w = events w0
    /\ filter is_guard_call (calls w) = filter is_guard_call (calls w0).
Proof.
  intros Hgwp ops.
  induction ops as [|op ops IH]; intros w0; simpl; [repeat split; reflexivity|].
  pose proof (exec_op_without_sampling op w0 Hgwp) as Hop. simpl in Hop.
  destruct (exec_op backend GuardedAlloc CurrentMemoryTracker cfg op w0) as [alive w1].
  simpl in Hop. destruct Hop as (Hg & He & Hc).
  destruct alive.
  - specialize (IH w1). simpl in IH. destruct IH as (IHg & IHe & IHc).
    repeat split; congruence.
  - repeat split; assumption.
Qed.

(** One call in the jemalloc build. *)
Lemma exec_op_with_jemalloc (op : Op Tr) (w : W) :
  USE_JEMALLOC cfg = true ->
  let w' := snd (exec_op backend GuardedAlloc CurrentMemoryTracker cfg op w) in
  allocate_success (events w') = allocate_success (events w)
  /\ allocate_failed (events w') = allocate_failed (events w)
  /\ filter is_sampling_call (calls w') = filter is_sampling_call (calls w).
Proof.
  intros Hje.
  destruct op as [size align|size align|p|p size align|size align|p trace size align];
    unfold exec_op, forget; simpl; run_header; rewrite ?Hje;
    destruct (USE_GWP_ASAN cfg); try destruct align; simpl;
    repeat (split_match; simpl in * ); settle_filter.
Qed.

(** X10.  The jemalloc build never samples, whether or not sampling is
    compiled in: over every sequence of calls of the entries of the header
    no call of [shouldSample] or of the guarded [allocate] is made, and
    the counters of sampled successes and failures stay as they were. *)
Theorem jemalloc_build_never_samples :
  USE_JEMALLOC cfg = true ->
  forall (ops : list (Op Tr)) (w0 : W),
    let w := run_trace backend GuardedAlloc CurrentMemoryTracker cfg ops w0 in
    allocate_success (events w) = allocate_success (events w0)
    /\ allocate_failed (events w) = allocate_failed (events w0)
    /\ filter is_sampling_call (calls w) = filter is_sampling_call (calls w0).
Proof.
  intros Hje ops.
  induction ops as [|op ops IH]; intros w0; simpl; [repeat split; reflexivity|].
  pose proof (exec_op_with_jemalloc op w0 Hje) as Hop. simpl in Hop.
  destruct (exec_op backend GuardedAlloc CurrentMemoryTracker cfg op w0) as [alive w1].
  simpl in Hop. destruct Hop as (Hs & Hf & Hc).
  destruct alive.
  - specialize (IH w1). simpl in IH. destruct IH as (IHs & IHf & IHc).
    repeat split; congruence.
  - repeat split; assumption.
Qed.

(** X11.  A sampled allocation stays with the guarded pool for its whole
    life.  In a build with sampling and without jemalloc, against a pool
    that owns the pointers it hands out, let a request be sampled and
    served by the pool.  Then [newNoExcept] and [newImpl] return the
    pointer of the pool; [untrackMemory] on it takes its size from the
    caller or from the pool; [deleteImpl] and [deleteSized] give it back to
    the pool.  Over allocation and free the heap of the backend is not
    changed and no call of the backend is made, and the counters of
    successes and of frees have each gone up by one. *)
Theorem sampled_allocation_round_trip :
  USE_JEMALLOC cfg = false ->
  USE_GWP_ASAN cfg = true ->
  OwnsWhatItAllocates GuardedAlloc ->
  forall (size declared : size_t) (align : option size_t) (w : W),
    fst (shouldSample GuardedAlloc (guarded w)) = true ->
    fst (guarded_answer GuardedAlloc size align (guarded w)) <> nullptr ->
    let p := fst (guarded_answer GuardedAlloc size align (guarded w)) in
    let allocated := newNoExcept backend GuardedAlloc cfg size align w in
    let w1 := snd allocated in
    let w2 := snd (deleteImpl backend GuardedAlloc cfg p w1) in
    fst allocated = Returned p
    /\ newImpl backend GuardedAlloc cfg size align w = allocated
    /\ pointerIsMine GuardedAlloc p (guarded w1) = true
    /\ deleteImpl backend GuardedAlloc cfg p w1
       = (Returned tt, freed_by_guard GuardedAlloc p w1)
    /\ deleteSized backend GuardedAlloc cfg p declared align w1
       = (Returned tt, freed_by_guard GuardedAlloc p w1)
    /\ heap w2 = heap w
    /\ filter is_backend_alloc (calls w2) = filter is_backend_alloc (calls w)
    /\ filter is_backend_free (calls w2) = filter is_backend_free (calls w)
    /\ events w2
       = mkCounters (S (allocate_success (events w))) (allocate_failed (events w))
                    (S (guarded_free (events w))).
Proof.
  intros Hje Hgwp Howns size declared align w Hsample Hserved p allocated w1 w2.
  subst w2 w1 allocated p.
  unfold guarded_answer in *.
  pose proof (Howns size align (snd (shouldSample GuardedAlloc (guarded w))) Hserved)
    as Hmine.
  unfold freed_by_guard.
  run_header. rewrite Hje, Hgwp.
  destruct align as [a|]; simpl in *;
    destruct (shouldSample GuardedAlloc (guarded w)) as [sample g1]; simpl in *;
    subst sample; simpl in *;
    destruct (allocate GuardedAlloc size _ g1) as [q g2]; simpl in *;
    (destruct (q =? nullptr) eqn:Eq; [null_tests; contradiction|]); simpl;
    rewrite Hmine; simpl;
    rewrite ?filter_app; simpl; rewrite ?app_nil_r, <- ?app_assoc; simpl;
    repeat split; reflexivity.
Qed.

End Builds.

Section Edges.

Context {H G T Tr : Type}.
Variable backend : Backend H.
Variable GuardedAlloc : GuardedPoolAllocator G.
Variable CurrentMemoryTracker : MemoryTracker T Tr.
Variable cfg : Config.

Abbreviation W := (World H G T).

(** X12.  [deleteImpl] on the null pointer changes nothing, in every build:
    it returns, the heap, the guarded pool, the tracker and the counters
    are as before, nothing is given to the guarded pool and no profile
    event is incremented.  The null pointer does travel to the backend,
    to [je_free] in the jemalloc build and to [free] otherwise (there,
    with sampling, after [pointerIsMine]); the backends are assumed to
    ignore it and the pool not to own it. *)
Theorem deleteImpl_null_is_noop :
  FreeNullIsNoop backend ->
  JeFreeNullIsNoop backend ->
  NullIsNotGuarded GuardedAlloc ->
  forall w : W,
    exists w' added,
      deleteImpl backend GuardedAlloc cfg nullptr w = (Returned tt, w')
      /\ heap w' = heap w
      /\ guarded w' = guarded w
      /\ tracker w' = tracker w
      /\ events w' = events w
      /\ calls w' = calls w ++ added
      /\ filter is_guarded_deallocate added = []
      /\ filter is_increment added = []
      /\ filter is_backend_free added
         = [if USE_JEMALLOC cfg then CallJeFree nullptr else CallFree nullptr].
Proof.
  intros Hfree Hjefree Hnull w.
  run_header.
  destruct (USE_JEMALLOC cfg), (USE_GWP_ASAN cfg); simpl;
    rewrite ?Hnull; simpl; rewrite ?Hfree, ?Hjefree.
  - eexists; exists [CallJeFree nullptr]. repeat split; reflexivity.
  - eexists; exists [CallJeFree nullptr]. repeat split; reflexivity.
  - eexists; exists [CallPointerIsMine nullptr; CallFree nullptr].
    simpl; rewrite <- app_assoc. repeat split; reflexivity.
  - eexists; exists [CallFree nullptr]. repeat split; reflexivity.
Qed.

(** X13.  A failure of the tracker on the release of a pointer of the
    backend is swallowed.  When [CurrentMemoryTracker::free] throws for a
    pointer the guarded pool does not own, [untrackMemory] returns all the
    same: it returns the size it has resolved, and the trace of the caller
    comes back as it went in.  The state of the tracker is the one the
    failed call has left. *)
Theorem untrackMemory_swallows_tracker_failure :
  forall (p : ptr) (trace : Tr) (size : size_t) (align : option size_t) (w : W),
    (USE_GWP_ASAN cfg = true -> pointerIsMine GuardedAlloc p (guarded w) = false) ->
    fst (tracker_free CurrentMemoryTracker
           (released_size backend cfg p size align (heap w)) (tracker w)) = None ->
    exists w',
      untrackMemory backend GuardedAlloc CurrentMemoryTracker cfg p trace size align w
      = (Returned (released_size backend cfg p size align (heap w), trace), w')
      /\ tracker w'
         = snd (tracker_free CurrentMemoryTracker
                  (released_size backend cfg p size align (heap w)) (tracker w))
      /\ heap w' = heap w
      /\ guarded w' = guarded w
      /\ events w' = events w.
Proof.
  intros p trace size align w Hmine Hthrows.
  destruct (untrackMemory_not_guarded
              backend GuardedAlloc CurrentMemoryTracker cfg p trace size align w Hmine)
    as (w' & E & Hh & Hg & He & Ht & _).
  rewrite Hthrows in E.
  exists w'. repeat split; assumption.
Qed.

(** X14.  The accounting of a sampled allocation balances.  In a build
    with sampling and without jemalloc, against a pool that owns the
    pointers it hands out and reports for them the size that was asked
    for, let a request be sampled and served by the pool.  [trackMemory]
    charges the size of the request; [untrackMemory] on the pointer, with
    no size declared or with the size of the request declared, asks the
    tracker to release that same size.  This holds for a request of no
    bytes too. *)
Theorem sampled_allocation_accounting_balances :
  USE_JEMALLOC cfg = false ->
  USE_GWP_ASAN cfg = true ->
  OwnsWhatItAllocates GuardedAlloc ->
  GetSizeIsRequested GuardedAlloc ->
  forall (size : size_t) (align : option size_t) (trace : Tr) (w : W),
    fst (shouldSample GuardedAlloc (guarded w)) = true ->
    fst (guarded_answer GuardedAlloc size align (guarded w)) <> nullptr ->
    let p := fst (guarded_answer GuardedAlloc size align (guarded w)) in
    let w1 := snd (trackMemory backend CurrentMemoryTracker cfg size align w) in
    let w2 := snd (newImpl backend GuardedAlloc cfg size align w1) in
    let unsized :=
      untrackMemory backend GuardedAlloc CurrentMemoryTracker cfg p trace 0 align w2 in
    let sized :=
      untrackMemory backend GuardedAlloc CurrentMemoryTracker cfg p trace size align w2 in
    fst (newImpl backend GuardedAlloc cfg size align w1) = Returned p
    /\ charged_sizes (calls w2) = charged_sizes (calls w) ++ [size]
    /\ released_sizes (calls (snd unsized)) = released_sizes (calls w) ++ [size]
    /\ released_sizes (calls (snd sized)) = released_sizes (calls w) ++ [size].
Proof.
  intros Hje Hgwp Howns Hsize size align trace w Hsample Hserved p w1 w2 unsized sized.
  subst sized unsized w2 w1 p.
  unfold guarded_answer in *.
  pose proof (Howns size align (snd (shouldSample GuardedAlloc (guarded w))) Hserved)
    as Hmine.
  pose proof (Hsize size align (snd (shouldSample GuardedAlloc (guarded w))) Hserved)
    as Hget.
  run_header. rewrite Hje, Hgwp.
  destruct (allocNoThrow CurrentMemoryTracker size (tracker w)) as [trace1 t1].
  destruct align as [a|]; simpl in *;
    destruct (shouldSample GuardedAlloc (guarded w)) as [sample g1]; simpl in *;
    subst sample; simpl in *;
    destruct (allocate GuardedAlloc size _ g1) as [q g2]; simpl in *;
    (destruct (q =? nullptr) eqn:Eq; [null_tests; contradiction|]); simpl;
    rewrite Hmine; simpl; rewrite Hget;
    destruct (size =? 0) eqn:Ez; simpl; null_tests; subst;
    repeat (split_match; simpl in * );
    rewrite ?charged_sizes_app, ?released_sizes_app; simpl;
    rewrite ?app_nil_r; repeat split; reflexivity.
Qed.

End Edges.

(** ** The further properties on the reference world *)

Lemma Reference_je_free_null : JeFreeNullIsNoop the_backend.
Proof. intros h. reflexivity. Qed.

Lemma Reference_owns_what_it_allocates : OwnsWhatItAllocates the_guarded_pool.
Proof.
  intros size align g. simpl.
  destruct (free_slots g); simpl; intros Hp.
  - contradiction.
  - rewrite Z.eqb_refl. simpl.
    destruct (slot_address (next_slot g) =? nullptr) eqn:E; [null_tests; contradiction|].
    reflexivity.
Qed.

Lemma Reference_get_size_is_requested : GetSizeIsRequested the_guarded_pool.
Proof.
  intros size align g. simpl.
  destruct (free_slots g); simpl; intros Hp.
  - contradiction.
  - rewrite Z.eqb_refl. reflexivity.
Qed.

Lemma deleteSized_is_deleteImpl_witness :
  USE_JEMALLOC libc_gwp_build = false
  /\ deleteSized the_backend the_guarded_pool libc_gwp_build 4096 24 (Some 16) sampling
     = deleteImpl the_backend the_guarded_pool libc_gwp_build 4096 sampling.
Proof.
  split; [reflexivity|].
  exact (deleteSized_is_deleteImpl_without_jemalloc
           the_backend the_guarded_pool libc_gwp_build eq_refl 4096 24 (Some 16) sampling).
Defined.

Lemma sized_release_matches_charge_witness :
  let tracked := trackMemory the_backend the_tracker libc_gwp_build 24 (Some 16) fresh in
  let untracked :=
    untrackMemory the_backend the_guarded_pool the_tracker libc_gwp_build
                  4096 0 24 None (snd tracked) in
  0 < 24
  /\ (exists trace1, fst tracked = Returned (24, trace1))
  /\ charged_sizes (calls (snd tracked)) = charged_sizes (calls fresh) ++ [24]
  /\ released_sizes (calls (snd untracked)) = released_sizes (calls (snd tracked)) ++ [24]
  /\ filter is_size_query (calls (snd untracked)) = filter is_size_query (calls (snd tracked))
  /\ ((exists trace2, fst untracked = Returned (24, trace2))
      \/ fst untracked = Terminated).
Proof.
  intros tracked untracked.
  split; [reflexivity|].
  exact (sized_release_matches_charge_without_jemalloc
           the_backend the_guarded_pool the_tracker libc_gwp_build eq_refl
           24 (Some 16) None 4096 0 fresh (snd tracked) eq_refl).
Defined.

Lemma untrackMemory_of_guarded_pointer_witness :
  let w := snd (newNoExcept the_backend the_guarded_pool libc_gwp_build 8 None sampling) in
  USE_GWP_ASAN libc_gwp_build = true
  /\ pointerIsMine the_guarded_pool (slot_address 0) (guarded w) = true
  /\ untrackMemory the_backend the_guarded_pool the_tracker libc_gwp_build
                   (slot_address 0) 0 0 None w
     = (Returned (8, -8),
        mkWorld (heap w) (guarded w) (mkUsage (-8) false) (events w)
                (calls w ++ [CallPointerIsMine (slot_address 0);
                             CallGetSize (slot_address 0); CallTrackerFree 8])).
Proof.
  intros w.
  split; [reflexivity|]. split; [reflexivity|].
  exact (untrackMemory_of_guarded_pointer
           the_backend the_guarded_pool the_tracker libc_gwp_build eq_refl
           (slot_address 0) 0 0 None w eq_refl).
Defined.

Lemma no_sampling_without_gwp_asan_witness :
  let ops : list (Op Z) :=
    [OpTrackMemory 24 None; OpNewImpl 24 None; OpUntrackMemory 4096 0 24 None;
     OpDeleteSized 4096 24 None] in
  let w := run_trace the_backend the_guarded_pool the_tracker libc_build ops sampling in
  USE_GWP_ASAN libc_build = false
  /\ guarded w = guarded sampling
  /\ events w = events sampling
  /\ filter is_guard_call (calls w) = filter is_guard_call (calls sampling).
Proof.
  intros ops w.
  split; [reflexivity|].
  exact (no_sampling_without_gwp_asan
           the_backend the_guarded_pool the_tracker libc_build eq_refl ops sampling).
Defined.

Lemma jemalloc_build_never_samples_witness :
  let ops : list (Op Z) :=
    [OpNewNoExcept 8 None; OpNewImpl 16 (Some 16); OpDeleteImpl 4096;
     OpDeleteSized 4104 16 (Some 16)] in
  let w := run_trace the_backend the_guarded_pool the_tracker jemalloc_gwp_build ops sampling in
  USE_JEMALLOC jemalloc_gwp_build = true
  /\ allocate_success (events w) = allocate_success (events sampling)
  /\ allocate_failed (events w) = allocate_failed (events sampling)
  /\ filter is_sampling_call (calls w) = filter is_sampling_call (calls sampling).
Proof.
  intros ops w.
  split; [reflexivity|].
  exact (jemalloc_build_never_samples
           the_backend the_guarded_pool the_tracker jemalloc_gwp_build eq_refl ops sampling).
Defined.

Lemma sampled_allocation_round_trip_witness :
  let allocated := newNoExcept the_backend the_guarded_pool libc_gwp_build 8 None sampling in
  let w1 := snd allocated in
  let w2 := snd (deleteImpl the_backend the_guarded_pool libc_gwp_build (slot_address 0) w1) in
  fst (shouldSample the_guarded_pool (guarded sampling)) = true
  /\ fst (guarded_answer the_guarded_pool 8 None (guarded sampling)) <> nullptr
  /\ fst allocated = Returned (slot_address 0)
  /\ newImpl the_backend the_guarded_pool libc_gwp_build 8 None sampling = allocated
  /\ pointerIsMine the_guarded_pool (slot_address 0) (guarded w1) = true
  /\ deleteImpl the_backend the_guarded_pool libc_gwp_build (slot_address 0) w1
     = (Returned tt, freed_by_guard the_guarded_pool (slot_address 0) w1)
  /\ deleteSized the_backend the_guarded_pool libc_gwp_build (slot_address 0) 8 None w1
     = (Returned tt, freed_by_guard the_guarded_pool (slot_address 0) w1)
  /\ heap w2 = heap sampling
  /\ filter is_backend_alloc (calls w2) = filter is_backend_alloc (calls sampling)
  /\ filter is_backend_free (calls w2) = filter is_backend_free (calls sampling)
  /\ events w2 = mkCounters 1 0 1.
Proof.
  intros allocated w1 w2.
  assert (Hserved : fst (guarded_answer the_guarded_pool 8 None (guarded sampling)) <> nullptr)
    by (vm_compute; discriminate).
  split; [reflexivity|]. split; [exact Hserved|].
  exact (sampled_allocation_round_trip
           the_backend the_guarded_pool libc_gwp_build eq_refl eq_refl
           Reference_owns_what_it_allocates 8 8 None sampling eq_refl Hserved).
Defined.

Lemma deleteImpl_null_is_noop_witness :
  exists w' added,
    deleteImpl the_backend the_guarded_pool libc_gwp_build nullptr sampling = (Returned tt, w')
    /\ heap w' = heap sampling
    /\ guarded w' = guarded sampling
    /\ tracker w' = tracker sampling
    /\ events w' = events sampling
    /\ calls w' = calls sampling ++ added
    /\ filter is_guarded_deallocate added = []
    /\ filter is_increment added = []
    /\ filter is_backend_free added = [CallFree nullptr].
Proof.
  exact (deleteImpl_null_is_noop
           the_backend the_guarded_pool libc_gwp_build
           Reference_free_null Reference_je_free_null Reference_null_not_guarded sampling).
Defined.

Lemma untrackMemory_swallows_tracker_failure_witness :
  let w :=
    snd (newImpl the_backend the_guarded_pool libc_gwp_build 24 None
                 (start 1000 [] 0 true)) in
  pointerIsMine the_guarded_pool 4096 (guarded w) = false
  /\ fst (tracker_free the_tracker 24 (tracker w)) = None
  /\ exists w',
       untrackMemory the_backend the_guarded_pool the_tracker libc_gwp_build 4096 7 0 None w
       = (Returned (24, 7), w')
       /\ tracker w' = snd (tracker_free the_tracker 24 (tracker w))
       /\ heap w' = heap w
       /\ guarded w' = guarded w
       /\ events w' = events w.
Proof.
  intros w.
  split; [reflexivity|]. split; [reflexivity|].
  exact (untrackMemory_swallows_tracker_failure
           the_backend the_guarded_pool the_tracker libc_gwp_build
           4096 7 0 None w (fun _ => eq_refl) eq_refl).
Defined.

Lemma sampled_allocation_accounting_balances_witness :
  let w1 := snd (trackMemory the_backend the_tracker libc_gwp_build 8 None sampling) in
  let w2 := snd (newImpl the_backend the_guarded_pool libc_gwp_build 8 None w1) in
  let unsized :=
    untrackMemory the_backend the_guarded_pool the_tracker libc_gwp_build
                  (slot_address 0) 0 0 None w2 in
  let sized :=
    untrackMemory the_backend the_guarded_pool the_tracker libc_gwp_build
                  (slot_address 0) 0 8 None w2 in
  fst (shouldSample the_guarded_pool (guarded sampling)) = true
  /\ fst (newImpl the_backend the_guarded_pool libc_gwp_build 8 None w1)
     = Returned (slot_address 0)
  /\ charged_sizes (calls w2) = charged_sizes (calls sampling) ++ [8]
  /\ released_sizes (calls (snd unsized)) = released_sizes (calls sampling) ++ [8]
  /\ released_sizes (calls (snd sized)) = released_sizes (calls sampling) ++ [8].
Proof.
  intros w1 w2 unsized sized.
  split; [reflexivity|].
  exact (sampled_allocation_accounting_balances
           the_backend the_guarded_pool the_tracker libc_gwp_build eq_refl eq_refl
           Reference_owns_what_it_allocates Reference_get_size_is_requested
           8 None 0 sampling eq_refl ltac:(vm_compute; discriminate)).
Defined.
